(** * routing_request.py: a one-shot RoutingRequest publisher

    Shallow embedding of [modules/tools/whl-mock/routing_request.py].

    - Python [float] is IEEE-754 binary64: Rocq's primitive [float], whose
      [+], [*] and [/] round to nearest exactly as CPython's do.  [math.cos]
      and [math.sin] raise [ValueError] on an infinite argument and return
      the C library's value on every other one; the C library's functions
      are taken as parameters.
    - Python [int] is unbounded: [Z].  [Header.sequence_num] is an unsigned
      protobuf field of fixed width: assigning a value outside its range
      raises [ValueError].  The width is declared in the .proto file, which
      is not part of the script, and is a parameter.
    - The three module globals, the messages handed to [writer.write], the
      Cyber RT shutdown flag, the wall clock and the emitted log records are
      the fields of one [World]; every function of the script is a
      computation in a state-and-exception monad [Py] over it.
    - The reader's callback and the loop of [main] are interleaved call by
      call: a run is a list of events, each a whole callback invocation or a
      whole loop iteration (the test of the loop condition together with
      the body).  What falls inside an iteration, between the test and the
      write, or inside the [except] and [finally] clauses, is not
      represented.
    - Protobuf messages are records; a scalar field that may be unset is an
      [option], and reading an unset field yields the default of its
      declaration (a parameter: the .proto files are not part of the script). *)

From Stdlib Require Import Floats ZArith List String Bool Lia.
Import ListNotations.

Set Implicit Arguments.

(** ** Protobuf messages *)

(** [apollo.common.Header]: the three fields the script assigns. *)
Module Header.
Record t : Type := mk {
  timestamp_sec : option float;
  module_name : option string;
  sequence_num : option Z
}.
Definition unset : t := mk None None None.
Definition set_timestamp_sec (v : float) (h : t) : t :=
  mk (Some v) (module_name h) (sequence_num h).
Definition set_module_name (v : string) (h : t) : t :=
  mk (timestamp_sec h) (Some v) (sequence_num h).
Definition set_sequence_num (v : Z) (h : t) : t :=
  mk (timestamp_sec h) (module_name h) (Some v).
End Header.

(** [apollo.common.PointENU]: a planar point. *)
Module PointENU.
Record t : Type := mk {
  x : option float;
  y : option float
}.
Definition unset : t := mk None None.
Definition set_x (v : float) (p : t) : t := mk (Some v) (y p).
Definition set_y (v : float) (p : t) : t := mk (x p) (Some v).
End PointENU.

(** [apollo.localization.Pose]: position and heading of the vehicle. *)
Module Pose.
Record t : Type := mk {
  position : PointENU.t;
  heading : option float
}.
End Pose.

(** [apollo.localization.LocalizationEstimate]. *)
Module LocalizationEstimate.
Record t : Type := mk {
  header : Header.t;
  pose : Pose.t
}.
Definition set_header (h : Header.t) (m : t) : t := mk h (pose m).
End LocalizationEstimate.

(** [apollo.routing.LaneWaypoint]: an element of a request's waypoint list. *)
Module LaneWaypoint.
Record t : Type := mk {
  pose : PointENU.t;
  heading : option float
}.
Definition unset : t := mk PointENU.unset None.
Definition set_pose (p : PointENU.t) (wp : t) : t := mk p (heading wp).
Definition set_heading (v : float) (wp : t) : t := mk (pose wp) (Some v).
End LaneWaypoint.

(** [apollo.routing.RoutingRequest]. *)
Module RoutingRequest.
Record t : Type := mk {
  header : Header.t;
  waypoint : list LaneWaypoint.t
}.
(** [RoutingRequest()] *)
Definition new : t := mk Header.unset [].
Definition set_header (h : Header.t) (m : t) : t := mk h (waypoint m).
(** [m.waypoint.add()] appends a fresh element; the element is then filled in
    by [set_last]. *)
Definition waypoint_add (m : t) : t := mk (header m) (waypoint m ++ [LaneWaypoint.unset]).
Definition set_last (f : LaneWaypoint.t -> LaneWaypoint.t) (m : t) : t :=
  mk (header m)
     (match rev (waypoint m) with
      | [] => []
      | wp :: before => rev before ++ [f wp]
      end).
End RoutingRequest.

(** [google.protobuf.message.Message]: the base class [fill_header] accepts.
    [hasattr(msg, "header")] holds exactly for the message types that declare
    a [header] field; for those [msg.header] is a mutable sub-message. *)
Record HeaderField (T : Type) : Type := {
  get_header : T -> Header.t;
  set_header : Header.t -> T -> T;
  get_set_header : forall h m, get_header (set_header h m) = h
}.

Class Message (T : Type) : Type := {
  header_attr : option (HeaderField T)
}.

#[export] Instance RoutingRequest_Message : Message RoutingRequest.t := {
  header_attr := Some {|
    get_header := RoutingRequest.header;
    set_header := RoutingRequest.set_header;
    get_set_header := fun _ _ => eq_refl |}
}.

#[export] Instance LocalizationEstimate_Message : Message LocalizationEstimate.t := {
  header_attr := Some {|
    get_header := LocalizationEstimate.header;
    set_header := LocalizationEstimate.set_header;
    get_set_header := fun _ _ => eq_refl |}
}.

#[export] Instance PointENU_Message : Message PointENU.t := {
  header_attr := None
}.

#[export] Instance LaneWaypoint_Message : Message LaneWaypoint.t := {
  header_attr := None
}.

(** A message of any protobuf type, for sequences of [fill_header] calls on
    messages of different types. *)
Record AnyMessage : Type := any_message {
  msg_type : Type;
  msg_class : Message msg_type;
  msg_value : msg_type
}.
Arguments any_message {msg_type msg_class} msg_value.

(** ** The world the script runs in *)

Inductive LogLevel : Type := DEBUG | INFO | WARNING | ERROR.

Definition levelno (l : LogLevel) : Z :=
  match l with
  | DEBUG => 10
  | INFO => 20
  | WARNING => 30
  | ERROR => 40
  end.

(** One constructor per logging call of the script, with the values its
    format string interpolates. *)
Inductive LogMessage : Type :=
| ReceivedLocalization (x y : float)
| WaitingForLocalization
| PublishedRoutingRequest (seq : option Z) (start_x start_y end_x end_y : float)
| SubscribedToTopic (topic : string)
| ReadyToPublish (topic : string)
| InitiatingShutdown
| StoppedByUser
| UnexpectedError
| ShutdownComplete.

Inductive exn : Type :=
| KeyboardInterrupt
| Exception.   (* any subclass of Exception, ValueError among them *)

Record World : Type := mkWorld {
  (* module globals *)
  latest_localization_msg : option LocalizationEstimate.t;
  global_sequence_num : Z;
  routing_published : bool;
  (* environment *)
  written : list RoutingRequest.t;  (* arguments of writer.write, oldest first *)
  is_shutdown : bool;               (* cyber.is_shutdown() *)
  clock : float;                    (* what time.time() returns now *)
  log : list (LogLevel * LogMessage)
}.

(** The state of the process when the module has been imported. *)
Definition initial_world (t0 : float) : World :=
  mkWorld None 0 false [] false t0 [].

Definition set_latest_localization_msg (v : option LocalizationEstimate.t) (w : World) : World :=
  mkWorld v (global_sequence_num w) (routing_published w)
          (written w) (is_shutdown w) (clock w) (log w).
Definition set_global_sequence_num (v : Z) (w : World) : World :=
  mkWorld (latest_localization_msg w) v (routing_published w)
          (written w) (is_shutdown w) (clock w) (log w).
Definition set_routing_published (v : bool) (w : World) : World :=
  mkWorld (latest_localization_msg w) (global_sequence_num w) v
          (written w) (is_shutdown w) (clock w) (log w).
Definition set_written (v : list RoutingRequest.t) (w : World) : World :=
  mkWorld (latest_localization_msg w) (global_sequence_num w) (routing_published w)
          v (is_shutdown w) (clock w) (log w).
Definition set_is_shutdown (v : bool) (w : World) : World :=
  mkWorld (latest_localization_msg w) (global_sequence_num w) (routing_published w)
          (written w) v (clock w) (log w).
Definition set_clock (v : float) (w : World) : World :=
  mkWorld (latest_localization_msg w) (global_sequence_num w) (routing_published w)
          (written w) (is_shutdown w) v (log w).
Definition set_log (v : list (LogLevel * LogMessage)) (w : World) : World :=
  mkWorld (latest_localization_msg w) (global_sequence_num w) (routing_published w)
          (written w) (is_shutdown w) (clock w) v.

(** ** State and exceptions *)

Inductive Outcome (A : Type) : Type :=
| Ret (a : A)
| Raise (e : exn).
Arguments Ret {A} a.
Arguments Raise {A} e.

Definition Py (A : Type) : Type := World -> Outcome A * World.

Definition ret {A} (a : A) : Py A := fun w => (Ret a, w).
Definition raise {A} (e : exn) : Py A := fun w => (Raise e, w).
Definition bind {A B} (m : Py A) (k : A -> Py B) : Py B :=
  fun w =>
    match m w with
    | (Ret a, w') => k a w'
    | (Raise e, w') => (Raise e, w')
    end.
Definition gets {A} (f : World -> A) : Py A := fun w => (Ret (f w), w).
Definition modify (f : World -> World) : Py unit := fun w => (Ret tt, f w).

Declare Scope py_scope.
Delimit Scope py_scope with py.
Notation "x <- m ;; k" := (bind m (fun x => k))
  (at level 61, m at next level, right associativity) : py_scope.
Notation "m ;; k" := (bind m (fun _ => k))
  (at level 61, right associativity) : py_scope.
Open Scope py_scope.

Definition result {A} (r : Outcome A * World) : Outcome A := fst r.
Definition world {A} (r : Outcome A * World) : World := snd r.

(** ** External collaborators *)

(** [logging.basicConfig(level=logging.INFO, ...)]: a record below the
    configured level is dropped, after its message has been formatted. *)
Definition LOGGING_LEVEL : LogLevel := INFO.

Definition logging (lvl : LogLevel) (m : LogMessage) : Py unit :=
  fun w =>
    if (levelno LOGGING_LEVEL <=? levelno lvl)%Z
    then (Ret tt, set_log (log w ++ [(lvl, m)]) w)
    else (Ret tt, w).

(** [time.time()] *)
Definition time_time : Py float := gets clock.

(** [cyber.shutdown()] *)
Definition cyber_shutdown : Py unit := modify (set_is_shutdown true).

(** [cyber.Writer]: what a call of [write] does is decided by the bus, from
    the messages handed over before and the message at hand: it returns a
    success flag, or raises. *)
Inductive WriteOutcome : Type :=
| WriteReturns (ok : bool)
| WriteRaises (e : exn).

Record Writer : Type := {
  behaviour : list RoutingRequest.t -> RoutingRequest.t -> WriteOutcome
}.

(** [writer.write(msg)]: the message is handed to the bus, whatever comes back. *)
Definition write (writer : Writer) (msg : RoutingRequest.t) : Py bool :=
  fun w =>
    let w' := set_written (written w ++ [msg]) w in
    match behaviour writer (written w) msg with
    | WriteReturns ok => (Ret ok, w')
    | WriteRaises e => (Raise e, w')
    end.

(** [try: m  except e: h e] *)
Definition try_except {A} (m : Py A) (h : exn -> Py A) : Py A :=
  fun w =>
    match m w with
    | (Ret a, w') => (Ret a, w')
    | (Raise e, w') => h e w'
    end.

(** ** User configuration *)

Set Warnings "-inexact-float".
Open Scope float_scope.

Definition ORIGINAL_END_X : float := -3.886315019772555.
Definition ORIGINAL_END_Y : float := 37.61260329902406.
Definition ORIGINAL_END_HEADING : float := 1.485286644.

Definition EXTEND_LENGTH : float := 5.23 / 2.

Definition LOCALIZATION_TOPIC : string := "/apollo/localization/pose".
Definition ROUTING_REQUEST_TOPIC : string := "/apollo/routing_request".

Definition PUBLISH_FREQUENCY : float := 1.0.

(** ** The script *)

Section Script.

(** The C library's [cos] and [sin], which [math.cos] and [math.sin] wrap. *)
Variables cos sin : float -> float.

(** The width in bits of the unsigned field [Header.sequence_num] (32 in a
    [uint32] declaration, 64 in a [uint64] one). *)
Variable sequence_num_bits : positive.

Definition SEQUENCE_NUM_MAX : Z := (2 ^ Z.pos sequence_num_bits - 1)%Z.

(** The check made when [header.sequence_num] is assigned. *)
Definition sequence_num_in_range (v : Z) : bool :=
  ((0 <=? v) && (v <=? SEQUENCE_NUM_MAX))%Z.

(** [math.cos(x)] and [math.sin(x)]: [ValueError] (math domain error) on an
    infinity, the C library's value otherwise. *)
Definition math_cos (x : float) : Outcome float :=
  if is_infinity x then Raise Exception else Ret (cos x).

Definition math_sin (x : float) : Outcome float :=
  if is_infinity x then Raise Exception else Ret (sin x).

(** The defaults [PointENU] declares for [x] and [y]. *)
Variables PointENU_x_default PointENU_y_default : float.

Definition read_x (p : PointENU.t) : float :=
  match PointENU.x p with
  | Some v => v
  | None => PointENU_x_default
  end.

Definition read_y (p : PointENU.t) : float :=
  match PointENU.y p with
  | Some v => v
  | None => PointENU_y_default
  end.

Definition move_by_heading (x y heading length : float) : Outcome (float * float) :=
  match math_cos heading with
  | Raise e => Raise e
  | Ret c =>
      let dx := length * c in
      match math_sin heading with
      | Raise e => Raise e
      | Ret s =>
          let dy := length * s in
          let new_x := x + dx in
          let new_y := y + dy in
          Ret (new_x, new_y)
      end
  end.

(** The call made when the module is imported.  An exception here would
    abort the import; the configured heading is finite, so the call returns
    (lemma [END_POINT_returns]) and the [Raise] branches below are dead. *)
Definition END_POINT : Outcome (float * float) :=
  move_by_heading ORIGINAL_END_X ORIGINAL_END_Y ORIGINAL_END_HEADING EXTEND_LENGTH.
Definition END_X : float :=
  match END_POINT with
  | Ret (end_x, _) => end_x
  | Raise _ => nan
  end.
Definition END_Y : float :=
  match END_POINT with
  | Ret (_, end_y) => end_y
  | Raise _ => nan
  end.

Definition localization_callback (msg : LocalizationEstimate.t) : Py unit :=
  published <- gets routing_published ;;
  if published : bool then ret tt
  else
    modify (set_latest_localization_msg (Some msg)) ;;
    logging DEBUG
      (ReceivedLocalization
         (read_x (Pose.position (LocalizationEstimate.pose msg)))
         (read_y (Pose.position (LocalizationEstimate.pose msg)))).

(** [msg] is mutated in place by the script; here the stamped message is
    returned.  The counter is incremented before the assignment to
    [sequence_num], which raises [ValueError] on a value out of range. *)
Definition fill_header {T : Type} {M : Message T} (msg : T) : Py T :=
  match header_attr with
  | Some f =>
      now <- time_time ;;
      let msg := set_header f (Header.set_timestamp_sec now (get_header f msg)) msg in
      let msg := set_header f (Header.set_module_name "routing_publisher" (get_header f msg)) msg in
      n <- gets global_sequence_num ;;
      modify (set_global_sequence_num (n + 1)) ;;
      n <- gets global_sequence_num ;;
      if sequence_num_in_range n
      then ret (set_header f (Header.set_sequence_num n (get_header f msg)) msg)
      else raise Exception
  | None => ret msg
  end.

Definition create_and_publish_routing_request
  (writer : Writer) (end_x end_y end_heading : float) : Py bool :=
  latest <- gets latest_localization_msg ;;
  match latest with
  | None =>
      logging WARNING WaitingForLocalization ;;
      ret false
  | Some latest =>
      (* 1. the localization message is the starting point *)
      let start_pose := LocalizationEstimate.pose latest in
      let start_position := Pose.position start_pose in
      (* construct RoutingRequest *)
      routing_request <- fill_header RoutingRequest.new ;;
      (* start waypoint [0] *)
      let routing_request := RoutingRequest.waypoint_add routing_request in
      let routing_request :=
        RoutingRequest.set_last
          (fun wp => LaneWaypoint.set_pose
                       (PointENU.set_x (read_x start_position) (LaneWaypoint.pose wp)) wp)
          routing_request in
      let routing_request :=
        RoutingRequest.set_last
          (fun wp => LaneWaypoint.set_pose
                       (PointENU.set_y (read_y start_position) (LaneWaypoint.pose wp)) wp)
          routing_request in
      (* end waypoint [1] *)
      let routing_request := RoutingRequest.waypoint_add routing_request in
      let routing_request :=
        RoutingRequest.set_last
          (fun wp => LaneWaypoint.set_pose
                       (PointENU.set_x end_x (LaneWaypoint.pose wp)) wp)
          routing_request in
      let routing_request :=
        RoutingRequest.set_last
          (fun wp => LaneWaypoint.set_pose
                       (PointENU.set_y end_y (LaneWaypoint.pose wp)) wp)
          routing_request in
      let routing_request :=
        RoutingRequest.set_last (LaneWaypoint.set_heading end_heading) routing_request in
      (* publish *)
      write writer routing_request ;;
      logging INFO
        (PublishedRoutingRequest
           (Header.sequence_num (RoutingRequest.header routing_request))
           (read_x start_position) (read_y start_position) end_x end_y) ;;
      ret true
  end.

(** One pass through the body of [while not cyber.is_shutdown()]
    ([time.sleep] changes nothing the script can see). *)
Definition loop_body (writer : Writer) : Py unit :=
  published <- gets routing_published ;;
  (if negb published
   then
     r <- create_and_publish_routing_request writer END_X END_Y ORIGINAL_END_HEADING ;;
     modify (set_routing_published r)
   else ret tt) ;;
  published <- gets routing_published ;;
  (if published : bool
   then logging INFO InitiatingShutdown ;; cyber_shutdown
   else ret tt).

(** What happens to the process while [main] is in its loop. *)
Inductive Event : Type :=
| TimeIs (t : float)                       (* the wall clock advances to [t] *)
| Deliver (msg : LocalizationEstimate.t)   (* the reader invokes the callback *)
| Iteration                                (* the loop condition is tested *)
| Interrupt                                (* Ctrl-C *)
| ExternalShutdown.                        (* Cyber RT is shut down from outside *)

Inductive Status : Type :=
| Running      (* the events are exhausted, the loop is still alive *)
| Finished.    (* the loop has been left *)

Fixpoint run_loop (writer : Writer) (events : list Event) : Py Status :=
  match events with
  | [] => ret Running
  | TimeIs t :: events => modify (set_clock t) ;; run_loop writer events
  | Deliver msg :: events => localization_callback msg ;; run_loop writer events
  | Iteration :: events =>
      down <- gets is_shutdown ;;
      if down : bool then ret Finished
      else loop_body writer ;; run_loop writer events
  | Interrupt :: _ => raise KeyboardInterrupt
  | ExternalShutdown :: events => cyber_shutdown ;; run_loop writer events
  end.

(** The start of [main]: [cyber.init()], the node, its reader (from here on
    the callback may be invoked) and its writer. *)
Definition startup : Py unit :=
  logging INFO (SubscribedToTopic LOCALIZATION_TOPIC) ;;
  logging INFO (ReadyToPublish ROUTING_REQUEST_TOPIC).

(** The two [except] clauses of [main]. *)
Definition except_clause (e : exn) : Py Status :=
  match e with
  | KeyboardInterrupt => logging INFO StoppedByUser
  | Exception => logging ERROR UnexpectedError
  end ;;
  ret Finished.

(** The [finally] clause of [main]. *)
Definition finally_clause : Py Status :=
  down <- gets is_shutdown ;;
  (if negb down then cyber_shutdown else ret tt) ;;
  logging INFO ShutdownComplete ;;
  ret Finished.

(** [main()], with the writer the node hands out and the events that occur
    once the reader is created.  While the loop is alive the process has not
    reached the [finally] clause. *)
Definition main (writer : Writer) (events : list Event) : Py Status :=
  status <- try_except (startup ;; run_loop writer events) except_clause ;;
  match status with
  | Running => ret Running
  | Finished => finally_clause
  end.

(** A run of [fill_header] over messages of any types, each call at its own
    wall-clock time. *)
Fixpoint fill_headers (calls : list (float * AnyMessage)) : Py (list AnyMessage) :=
  match calls with
  | [] => ret []
  | (t, m) :: calls =>
      modify (set_clock t) ;;
      v <- fill_header (M := msg_class m) (msg_value m) ;;
      rest <- fill_headers calls ;;
      ret (any_message (msg_class := msg_class m) v :: rest)
  end.

(** [hasattr(msg, "header")] *)
Definition hasattr_header (m : AnyMessage) : bool :=
  match @header_attr _ (msg_class m) with
  | Some _ => true
  | None => false
  end.

(** The sequence numbers carried by the headers of the messages that have one. *)
Fixpoint sequence_nums (msgs : list AnyMessage) : list (option Z) :=
  match msgs with
  | [] => []
  | m :: msgs =>
      match @header_attr _ (msg_class m) with
      | Some f => Header.sequence_num (get_header f (msg_value m)) :: sequence_nums msgs
      | None => sequence_nums msgs
      end
  end.

(** ** Sample inputs *)

Definition pose_at (x y heading : float) : LocalizationEstimate.t :=
  LocalizationEstimate.mk Header.unset
    (Pose.mk (PointENU.mk (Some x) (Some y)) (Some heading)).

(** A writer whose every call succeeds. *)
Definition reliable_writer : Writer :=
  {| behaviour := fun _ _ => WriteReturns true |}.

(** A writer whose first call raises and whose later calls would succeed. *)
Definition flaky_writer : Writer :=
  {| behaviour := fun before _ =>
       match before with
       | [] => WriteRaises Exception
       | _ :: _ => WriteReturns true
       end |}.

(** Stand-ins for [math.cos] and [math.sin] in the concrete runs below, which
    exercise the control flow and not the value of the target. *)
Definition sample_cos (heading : float) : float := 1 - heading * heading / 2.
Definition sample_sin (heading : float) : float := heading - heading * heading * heading / 6.

(** A world in which a request has been published. *)
Definition published_world : World :=
  set_is_shutdown true
    (set_routing_published true
       (set_global_sequence_num 1
          (set_latest_localization_msg (Some (pose_at 1.0 2.0 0.5)) (initial_world 0)))).

(** A writer whose every call returns the failure flag. *)
Definition rejecting_writer : Writer :=
  {| behaviour := fun _ _ => WriteReturns false |}.

(** No event of the run is a delivery of a localization message. *)
Definition no_pose_delivered (events : list Event) : bool :=
  forallb (fun ev => match ev with Deliver _ => false | _ => true end) events.

(** ** The request the specification describes *)

(** The message of the specification's RoutingPublisher: a header stamped
    with the clock, the module name and the next sequence number; a start
    waypoint with the cached position and no heading; an end waypoint with
    the target and its heading. *)
Definition expected_routing_request
  (w : World) (latest : LocalizationEstimate.t) (end_x end_y end_heading : float)
  : RoutingRequest.t :=
  let start_position := Pose.position (LocalizationEstimate.pose latest) in
  RoutingRequest.mk
    (Header.mk (Some (clock w)) (Some "routing_publisher"%string)
               (Some (global_sequence_num w + 1)%Z))
    [ LaneWaypoint.mk
        (PointENU.mk (Some (read_x start_position)) (Some (read_y start_position)))
        None;
      LaneWaypoint.mk (PointENU.mk (Some end_x) (Some end_y)) (Some end_heading) ].

(** The specification's handling of a failed submission: a later tick hands
    the same waypoints to the bus again, under a fresh sequence number. *)
Definition retried (handed : list RoutingRequest.t) : Prop :=
  exists first second rest,
    handed = first :: second :: rest
    /\ RoutingRequest.waypoint second = RoutingRequest.waypoint first
    /\ Header.sequence_num (RoutingRequest.header second)
       <> Header.sequence_num (RoutingRequest.header first).

Unset Implicit Arguments.

(** ** Geometry *)

(** The import-time call returns: the configured heading is finite. *)
Lemma END_POINT_returns : END_POINT = Ret (END_X, END_Y).
Proof.
  reflexivity.
Qed.

(** C4, as the script has it. For every heading other than an infinity,
    [move_by_heading x y heading length] returns the pair
    [(x + length*cos heading, y + length*sin heading)] in binary64
    arithmetic; on an infinite heading [math.cos] raises [ValueError] and no
    pair is returned.  The configured heading is finite, so the call made at
    import time returns, and the end point it yields is the configured
    original end point moved by [EXTEND_LENGTH] (which is 2.615) along the
    configured heading. *)
Theorem move_by_heading_formula :
  (forall x y heading length,
      move_by_heading x y heading length
      = if is_infinity heading
        then Raise Exception
        else Ret (x + length * cos heading, y + length * sin heading))
  /\ move_by_heading ORIGINAL_END_X ORIGINAL_END_Y ORIGINAL_END_HEADING EXTEND_LENGTH
     = Ret (ORIGINAL_END_X + EXTEND_LENGTH * cos ORIGINAL_END_HEADING,
            ORIGINAL_END_Y + EXTEND_LENGTH * sin ORIGINAL_END_HEADING)
  /\ (END_X, END_Y)
     = (ORIGINAL_END_X + EXTEND_LENGTH * cos ORIGINAL_END_HEADING,
        ORIGINAL_END_Y + EXTEND_LENGTH * sin ORIGINAL_END_HEADING)
  /\ EXTEND_LENGTH = 2.615.
Proof.
  split; [|split; [reflexivity | split; reflexivity]].
  intros x y heading length.
  unfold move_by_heading, math_cos, math_sin.
  destruct (is_infinity heading); reflexivity.
Qed.

(** ** Sequencing *)

Lemma bind_returns :
  forall (A B : Type) (m : Py A) (k : A -> Py B) (w w' : World) (a : A),
    m w = (Ret a, w') -> (x <- m ;; k x) w = k a w'.
Proof.
  intros A B m k w w' a Hm. unfold bind. rewrite Hm. reflexivity.
Qed.

Lemma bind_raises :
  forall (A B : Type) (m : Py A) (k : A -> Py B) (w w' : World) (e : exn),
    m w = (Raise e, w') -> (x <- m ;; k x) w = (Raise e, w').
Proof.
  intros A B m k w w' e Hm. unfold bind. rewrite Hm. reflexivity.
Qed.

(** ** The pose cache *)

(** C7. Once [routing_published] is set, [localization_callback] returns
    normally and leaves the whole world as it was, for any message [p3]; in
    particular the cached message read afterwards is the one cached before. *)
Theorem localization_callback_frozen_after_publish :
  forall (w : World) (p3 : LocalizationEstimate.t),
    routing_published w = true ->
    localization_callback p3 w = (Ret tt, w)
    /\ latest_localization_msg (world (localization_callback p3 w))
       = latest_localization_msg w.
Proof.
  intros w p3 Hpub.
  assert (Hcall : localization_callback p3 w = (Ret tt, w)).
  { unfold localization_callback, bind, gets. rewrite Hpub. reflexivity. }
  split; [exact Hcall | rewrite Hcall; reflexivity].
Qed.

(** With [routing_published] set the callback returns at once. *)
Lemma localization_callback_ignored :
  forall (w : World) (p : LocalizationEstimate.t),
    routing_published w = true ->
    localization_callback p w = (Ret tt, w).
Proof.
  intros w p Hpub.
  unfold localization_callback, bind, gets. rewrite Hpub. reflexivity.
Qed.

(** While [routing_published] is unset the callback stores its argument and
    changes nothing else (the debug record is below the logging level). *)
Lemma localization_callback_stores :
  forall (w : World) (p : LocalizationEstimate.t),
    routing_published w = false ->
    localization_callback p w = (Ret tt, set_latest_localization_msg (Some p) w).
Proof.
  intros w p Hpub.
  unfold localization_callback, bind, gets. rewrite Hpub. reflexivity.
Qed.

(** C8. With [routing_published] unset, the callback invoked with [p1] and
    then with [p2] leaves [p2] cached (and nothing else changed): the later
    message overwrites the earlier one, so the cache holds [p1] only if the
    two messages are equal. *)
Theorem localization_callback_last_write_wins :
  forall (w : World) (p1 p2 : LocalizationEstimate.t),
    routing_published w = false ->
    (localization_callback p1 ;; localization_callback p2) w
    = (Ret tt, set_latest_localization_msg (Some p2) w)
    /\ latest_localization_msg
         (world ((localization_callback p1 ;; localization_callback p2) w))
       = Some p2
    /\ (p1 <> p2 ->
        latest_localization_msg
          (world ((localization_callback p1 ;; localization_callback p2) w))
        <> Some p1).
Proof.
  intros w p1 p2 Hpub.
  assert (Hrun : (localization_callback p1 ;; localization_callback p2) w
                 = (Ret tt, set_latest_localization_msg (Some p2) w)).
  { unfold bind at 1. rewrite (localization_callback_stores w p1 Hpub).
    rewrite localization_callback_stores by exact Hpub. reflexivity. }
  rewrite Hrun. repeat split.
  intros Hneq Heq. cbn in Heq. injection Heq as Heq. congruence.
Qed.

(** ** Header stamping *)

(** A message type without a [header] attribute: nothing happens. *)
Lemma fill_header_without_header_attr_eq :
  forall (T : Type) (M : Message T) (msg : T) (w : World),
    @header_attr T M = None ->
    (Ret msg, w) = fill_header msg w.
Proof.
  intros T M msg w Hno. unfold fill_header. rewrite Hno. reflexivity.
Qed.

(** C9. On a message of a type without a [header] attribute, [fill_header]
    returns normally with the message and the whole world unchanged; the
    sequence counter in particular keeps its value. *)
Theorem fill_header_without_header_attr :
  forall (T : Type) (M : Message T) (msg : T) (w : World),
    @header_attr T M = None ->
    fill_header msg w = (Ret msg, w)
    /\ global_sequence_num (world (fill_header msg w)) = global_sequence_num w.
Proof.
  intros T M msg w Hno.
  assert (Hcall : fill_header msg w = (Ret msg, w)).
  { symmetry. apply fill_header_without_header_attr_eq. exact Hno. }
  split; [exact Hcall | rewrite Hcall; reflexivity].
Qed.

(** The first sequence number fits a field of any width. *)
Lemma one_in_range : sequence_num_in_range 1 = true.
Proof.
  unfold sequence_num_in_range, SEQUENCE_NUM_MAX.
  assert (H : (2 ^ 1 <= 2 ^ Z.pos sequence_num_bits)%Z)
    by (apply Z.pow_le_mono_r; lia).
  change (2 ^ 1)%Z with 2%Z in H.
  apply andb_true_intro. split; apply Z.leb_le; lia.
Qed.

Lemma sequence_num_in_range_true :
  forall v : Z,
    sequence_num_in_range v = true <-> (0 <= v <= SEQUENCE_NUM_MAX)%Z.
Proof.
  intros v. unfold sequence_num_in_range.
  rewrite andb_true_iff, !Z.leb_le. reflexivity.
Qed.

Lemma sequence_num_in_range_false :
  forall v : Z,
    sequence_num_in_range v = false <-> (v < 0 \/ SEQUENCE_NUM_MAX < v)%Z.
Proof.
  intros v. unfold sequence_num_in_range.
  rewrite andb_false_iff, !Z.leb_gt. reflexivity.
Qed.

(** On a message with a [header], when the next sequence number fits the
    field, [fill_header] stamps the clock, the module name and the
    incremented counter, and changes the counter only. *)
Lemma fill_header_with_header_attr :
  forall (T : Type) (M : Message T) (f : HeaderField T) (msg : T) (w : World),
    @header_attr T M = Some f ->
    sequence_num_in_range (global_sequence_num w + 1) = true ->
    fill_header msg w
    = (Ret (set_header f
              (Header.mk (Some (clock w)) (Some "routing_publisher"%string)
                         (Some (global_sequence_num w + 1)%Z))
              (set_header f
                 (Header.set_module_name "routing_publisher"
                    (get_header f
                       (set_header f
                          (Header.set_timestamp_sec (clock w) (get_header f msg)) msg)))
                 (set_header f
                    (Header.set_timestamp_sec (clock w) (get_header f msg)) msg))),
       set_global_sequence_num (global_sequence_num w + 1)%Z w).
Proof.
  intros T M f msg w Hf Hrange.
  unfold fill_header. rewrite Hf.
  unfold bind, time_time, gets, modify, ret.
  cbn -[sequence_num_in_range Z.add]. rewrite Hrange.
  rewrite !get_set_header. reflexivity.
Qed.

(** On a message with a [header], when the next sequence number does not
    fit the field, the assignment raises [ValueError]; the counter has been
    incremented all the same. *)
Lemma fill_header_out_of_range :
  forall (T : Type) (M : Message T) (f : HeaderField T) (msg : T) (w : World),
    @header_attr T M = Some f ->
    sequence_num_in_range (global_sequence_num w + 1) = false ->
    fill_header msg w
    = (Raise Exception, set_global_sequence_num (global_sequence_num w + 1)%Z w).
Proof.
  intros T M f msg w Hf Hrange.
  unfold fill_header. rewrite Hf.
  unfold bind, time_time, gets, modify, ret.
  cbn -[sequence_num_in_range Z.add]. rewrite Hrange. reflexivity.
Qed.

(** One step of [fill_headers]. *)
Lemma fill_headers_cons :
  forall (t : float) (m : AnyMessage) (calls : list (float * AnyMessage)) (w : World),
    fill_headers ((t, m) :: calls) w
    = match fill_header (M := msg_class m) (msg_value m) (set_clock t w) with
      | (Ret v, w1) =>
          match fill_headers calls w1 with
          | (Ret rest, w2) => (Ret (any_message (msg_class := msg_class m) v :: rest), w2)
          | (Raise e, w2) => (Raise e, w2)
          end
      | (Raise e, w1) => (Raise e, w1)
      end.
Proof.
  intros t m calls w. reflexivity.
Qed.

(** From any world, a run of [fill_header] calls continues the count where
    the counter stands, as long as the numbers fit the field. *)
Lemma fill_headers_count_from :
  forall (calls : list (float * AnyMessage)) (w : World),
    (0 <= global_sequence_num w)%Z ->
    (global_sequence_num w
     + Z.of_nat (List.length (filter hasattr_header (map snd calls)))
     <= SEQUENCE_NUM_MAX)%Z ->
    exists stamped : list AnyMessage,
      result (fill_headers calls w) = Ret stamped
      /\ sequence_nums stamped
         = map (fun k => Some (global_sequence_num w + Z.of_nat k)%Z)
               (seq 1 (List.length (filter hasattr_header (map snd calls))))
      /\ global_sequence_num (world (fill_headers calls w))
         = (global_sequence_num w
            + Z.of_nat (List.length (filter hasattr_header (map snd calls))))%Z.
Proof.
  induction calls as [|[t [T M v]] calls IH]; intros w Hlow Hfit.
  - exists []. cbn. repeat split. lia.
  - rewrite fill_headers_cons. revert Hfit.
    cbn [msg_type msg_class msg_value map snd filter].
    destruct (@header_attr T M) as [f|] eqn:Hattr.
    + assert (Hhas : hasattr_header (@any_message T M v) = true).
      { unfold hasattr_header. cbn. rewrite Hattr. reflexivity. }
      rewrite Hhas. cbn [List.length]. intros Hfit.
      assert (Hrange : sequence_num_in_range (global_sequence_num (set_clock t w) + 1)
                       = true).
      { apply sequence_num_in_range_true. cbn. lia. }
      rewrite (fill_header_with_header_attr T M f v (set_clock t w) Hattr Hrange).
      destruct (IH (set_global_sequence_num
                      (global_sequence_num (set_clock t w) + 1)%Z (set_clock t w)))
        as [stamped [Hres [Hnums Hcounter]]]; [cbn; lia | cbn; lia |].
      destruct (fill_headers calls _) as [[rest|e] w'] eqn:Hrun;
        cbn in Hres; [|discriminate Hres].
      injection Hres as ->.
      eexists. split; [reflexivity|].
      cbn [sequence_nums msg_type msg_class msg_value world snd List.length seq map].
      rewrite Hattr, get_set_header.
      cbn in Hnums, Hcounter |- *.
      split.
      * f_equal.
        rewrite <- (seq_shift _ 1), map_map, Hnums.
        apply map_ext. intros k. f_equal. lia.
      * rewrite Hcounter. lia.
    + assert (Hhas : hasattr_header (@any_message T M v) = false).
      { unfold hasattr_header. cbn. rewrite Hattr. reflexivity. }
      rewrite Hhas. intros Hfit.
      rewrite <- (fill_header_without_header_attr_eq T M v (set_clock t w) Hattr).
      destruct (IH (set_clock t w) Hlow Hfit) as [stamped [Hres [Hnums Hcounter]]].
      destruct (fill_headers calls _) as [[rest|e] w'] eqn:Hrun;
        cbn in Hres; [|discriminate Hres].
      injection Hres as ->.
      eexists. split; [reflexivity|].
      cbn [sequence_nums msg_type msg_class msg_value world snd].
      rewrite Hattr.
      cbn in Hnums, Hcounter |- *.
      split; assumption.
Qed.

(** When the field runs out of numbers, the call that would stamp the first
    number too large raises, with the counter already on that number, and
    the calls after it are not made. *)
Lemma fill_headers_exhausted :
  forall (calls : list (float * AnyMessage)) (w : World),
    (0 <= global_sequence_num w <= SEQUENCE_NUM_MAX)%Z ->
    (SEQUENCE_NUM_MAX
     < global_sequence_num w
       + Z.of_nat (List.length (filter hasattr_header (map snd calls))))%Z ->
    result (fill_headers calls w) = Raise Exception
    /\ global_sequence_num (world (fill_headers calls w)) = (SEQUENCE_NUM_MAX + 1)%Z.
Proof.
  induction calls as [|[t [T M v]] calls IH]; intros w Hin Hover.
  - cbn in Hover. lia.
  - rewrite fill_headers_cons. revert Hover.
    cbn [msg_type msg_class msg_value map snd filter].
    destruct (@header_attr T M) as [f|] eqn:Hattr.
    + assert (Hhas : hasattr_header (@any_message T M v) = true).
      { unfold hasattr_header. cbn. rewrite Hattr. reflexivity. }
      rewrite Hhas. cbn [List.length]. intros Hover.
      destruct (sequence_num_in_range (global_sequence_num (set_clock t w) + 1))
        eqn:Hrange.
      * apply sequence_num_in_range_true in Hrange. cbn in Hrange.
        rewrite (fill_header_with_header_attr T M f v (set_clock t w) Hattr
                   (proj2 (sequence_num_in_range_true _) Hrange)).
        destruct (IH (set_global_sequence_num
                        (global_sequence_num (set_clock t w) + 1)%Z (set_clock t w)))
          as [Hres Hcounter]; [cbn; lia | cbn; lia |].
        destruct (fill_headers calls _) as [[rest|e] w'] eqn:Hrun;
          cbn in Hres; [discriminate Hres|].
        cbn in Hcounter |- *. split; assumption.
      * rewrite (fill_header_out_of_range T M f v (set_clock t w) Hattr Hrange).
        apply sequence_num_in_range_false in Hrange. cbn in Hrange |- *.
        split; [reflexivity | lia].
    + assert (Hhas : hasattr_header (@any_message T M v) = false).
      { unfold hasattr_header. cbn. rewrite Hattr. reflexivity. }
      rewrite Hhas. intros Hover.
      rewrite <- (fill_header_without_header_attr_eq T M v (set_clock t w) Hattr).
      destruct (IH (set_clock t w) Hin Hover) as [Hres Hcounter].
      destruct (fill_headers calls _) as [[rest|e] w'] eqn:Hrun;
        cbn in Hres; [discriminate Hres|].
      cbn in Hcounter |- *. split; assumption.
Qed.

(** ** Building and publishing the request *)

(** With a cached message and a sequence number that fits, the call stamps
    a fresh request, fills in the two waypoints and hands it to the writer;
    it returns [True] unless the writer raises. *)
Lemma create_and_publish_with_pose :
  forall (writer : Writer) (end_x end_y end_heading : float)
         (w : World) (latest : LocalizationEstimate.t),
    latest_localization_msg w = Some latest ->
    sequence_num_in_range (global_sequence_num w + 1) = true ->
    let request := expected_routing_request w latest end_x end_y end_heading in
    let handed :=
      set_written (written w ++ [request])
        (set_global_sequence_num (global_sequence_num w + 1)%Z w) in
    create_and_publish_routing_request writer end_x end_y end_heading w
    = match behaviour writer (written w) request with
      | WriteReturns _ =>
          (Ret true,
           set_log
             (log w ++
              [(INFO,
                PublishedRoutingRequest (Some (global_sequence_num w + 1)%Z)
                  (read_x (Pose.position (LocalizationEstimate.pose latest)))
                  (read_y (Pose.position (LocalizationEstimate.pose latest)))
                  end_x end_y)])
             handed)
      | WriteRaises e => (Raise e, handed)
      end.
Proof.
  intros writer end_x end_y end_heading w latest Hlatest Hrange request handed.
  unfold create_and_publish_routing_request.
  unfold bind at 1. unfold gets at 1. rewrite Hlatest.
  unfold bind at 1.
  rewrite (fill_header_with_header_attr _ RoutingRequest_Message _
             RoutingRequest.new w eq_refl Hrange).
  subst request handed. destruct writer as [outcome].
  unfold bind, write, logging, ret, expected_routing_request.
  cbv -[Z.add read_x read_y].
  destruct (outcome _ _); reflexivity.
Qed.

(** With a cached message and a sequence number that does not fit, the call
    raises in [fill_header]: the counter has moved, nothing is handed to the
    writer and nothing is logged. *)
Lemma create_and_publish_out_of_range :
  forall (writer : Writer) (end_x end_y end_heading : float)
         (w : World) (latest : LocalizationEstimate.t),
    latest_localization_msg w = Some latest ->
    sequence_num_in_range (global_sequence_num w + 1) = false ->
    create_and_publish_routing_request writer end_x end_y end_heading w
    = (Raise Exception, set_global_sequence_num (global_sequence_num w + 1)%Z w).
Proof.
  intros writer end_x end_y end_heading w latest Hlatest Hrange.
  unfold create_and_publish_routing_request.
  unfold bind at 1. unfold gets at 1. rewrite Hlatest.
  unfold bind at 1.
  rewrite (fill_header_out_of_range _ RoutingRequest_Message _
             RoutingRequest.new w eq_refl Hrange).
  reflexivity.
Qed.

(** Without a cached message, the call logs the wait notice and returns
    [False]. *)
Lemma create_and_publish_without_pose :
  forall (writer : Writer) (end_x end_y end_heading : float) (w : World),
    latest_localization_msg w = None ->
    create_and_publish_routing_request writer end_x end_y end_heading w
    = (Ret false, set_log (log w ++ [(WARNING, WaitingForLocalization)]) w).
Proof.
  intros writer end_x end_y end_heading w Hnone.
  unfold create_and_publish_routing_request.
  unfold bind at 1. unfold gets at 1. rewrite Hnone. reflexivity.
Qed.

(** C2. With a message cached (and the next sequence number within the range
    of the header field, as it is in every run of [main], where it is 1),
    the request handed to the writer has exactly two waypoints: the first
    with the cached position's x and y and no heading (the pose's own
    heading is not copied), the second with the target's x, y and heading;
    its header carries the next sequence number (1 in a fresh process); and
    the call returns [True] whenever the writer returns. *)
Theorem routing_request_has_start_and_end_waypoint :
  forall (writer : Writer) (end_x end_y end_heading : float)
         (w : World) (latest : LocalizationEstimate.t),
    latest_localization_msg w = Some latest ->
    sequence_num_in_range (global_sequence_num w + 1) = true ->
    let start_position := Pose.position (LocalizationEstimate.pose latest) in
    let r := create_and_publish_routing_request writer end_x end_y end_heading w in
    exists request : RoutingRequest.t,
      written (world r) = written w ++ [request]
      /\ RoutingRequest.waypoint request
         = [ LaneWaypoint.mk
               (PointENU.mk (Some (read_x start_position)) (Some (read_y start_position)))
               None;
             LaneWaypoint.mk (PointENU.mk (Some end_x) (Some end_y)) (Some end_heading) ]
      /\ Header.sequence_num (RoutingRequest.header request)
         = Some (global_sequence_num w + 1)%Z
      /\ (forall ok, behaviour writer (written w) request = WriteReturns ok ->
                     result r = Ret true).
Proof.
  intros writer end_x end_y end_heading w latest Hlatest Hrange start_position r.
  exists (expected_routing_request w latest end_x end_y end_heading).
  subst r.
  rewrite (create_and_publish_with_pose writer end_x end_y end_heading w latest
             Hlatest Hrange).
  cbv zeta.
  destruct (behaviour writer (written w)
              (expected_routing_request w latest end_x end_y end_heading)) as [ok'|e];
    (split; [reflexivity | split; [reflexivity | split; [reflexivity |]]]).
  - intros ok _. reflexivity.
  - intros ok Hok. discriminate Hok.
Qed.

(** C6. Without a cached message, every call returns [False] and hands
    nothing to the writer. *)
Theorem no_premature_publish :
  forall (writer : Writer) (end_x end_y end_heading : float) (w : World),
    latest_localization_msg w = None ->
    result (create_and_publish_routing_request writer end_x end_y end_heading w)
    = Ret false
    /\ written (world (create_and_publish_routing_request writer end_x end_y end_heading w))
       = written w.
Proof.
  intros writer end_x end_y end_heading w Hnone.
  rewrite (create_and_publish_without_pose writer end_x end_y end_heading w Hnone).
  split; reflexivity.
Qed.

(** C10. A call that returns [False] found no cached message and changed
    nothing but the log, which gained the wait notice: the sequence counter,
    the messages handed to the writer, the cached message and the published
    flag are as before. *)
Theorem not_ready_changes_no_state :
  forall (writer : Writer) (end_x end_y end_heading : float) (w : World),
    result (create_and_publish_routing_request writer end_x end_y end_heading w)
    = Ret false ->
    let w' := world (create_and_publish_routing_request writer end_x end_y end_heading w) in
    latest_localization_msg w = None
    /\ w' = set_log (log w ++ [(WARNING, WaitingForLocalization)]) w
    /\ global_sequence_num w' = global_sequence_num w
    /\ written w' = written w
    /\ latest_localization_msg w' = latest_localization_msg w
    /\ routing_published w' = routing_published w.
Proof.
  intros writer end_x end_y end_heading w Hfalse w'. subst w'.
  destruct (latest_localization_msg w) as [latest|] eqn:Hlatest.
  - exfalso. revert Hfalse.
    destruct (sequence_num_in_range (global_sequence_num w + 1)) eqn:Hrange.
    + rewrite (create_and_publish_with_pose writer end_x end_y end_heading w latest
                 Hlatest Hrange).
      cbv zeta.
      destruct (behaviour writer (written w)
                  (expected_routing_request w latest end_x end_y end_heading));
        cbn; discriminate.
    + rewrite (create_and_publish_out_of_range writer end_x end_y end_heading w latest
                 Hlatest Hrange).
      cbn. discriminate.
  - rewrite (create_and_publish_without_pose writer end_x end_y end_heading w Hlatest).
    cbn. rewrite Hlatest. repeat split.
Qed.

(** The sequence number of the specification's request is the next one. *)
Lemma expected_sequence_num :
  forall (w : World) (latest : LocalizationEstimate.t) (end_x end_y end_heading : float),
    Header.sequence_num
      (RoutingRequest.header (expected_routing_request w latest end_x end_y end_heading))
    = Some (global_sequence_num w + 1)%Z.
Proof.
  intros. reflexivity.
Qed.

(** ** The run loop *)

(** An iteration with the flag set: nothing but the shutdown. *)
Lemma loop_body_published :
  forall (writer : Writer) (w : World),
    routing_published w = true ->
    loop_body writer w
    = (Ret tt,
       set_is_shutdown true (set_log (log w ++ [(INFO, InitiatingShutdown)]) w)).
Proof.
  intros writer w Hpub.
  unfold loop_body, bind, gets. rewrite Hpub. cbn. rewrite Hpub. reflexivity.
Qed.

(** An iteration before any message arrived: the wait notice. *)
Lemma loop_body_waiting :
  forall (writer : Writer) (w : World),
    routing_published w = false ->
    latest_localization_msg w = None ->
    loop_body writer w
    = (Ret tt,
       set_routing_published false
         (set_log (log w ++ [(WARNING, WaitingForLocalization)]) w)).
Proof.
  intros writer w Hpub Hnone.
  unfold loop_body, bind, gets. rewrite Hpub. cbn [negb].
  rewrite (create_and_publish_without_pose writer _ _ _ w Hnone).
  reflexivity.
Qed.

(** An iteration with a cached message and a sequence number that fits:
    the request is handed over; the flag is set and Cyber RT shut down if
    the writer returns, and the exception leaves the iteration if it
    raises. *)
Lemma loop_body_publishing :
  forall (writer : Writer) (w : World) (latest : LocalizationEstimate.t),
    routing_published w = false ->
    latest_localization_msg w = Some latest ->
    sequence_num_in_range (global_sequence_num w + 1) = true ->
    let request := expected_routing_request w latest END_X END_Y ORIGINAL_END_HEADING in
    let handed :=
      set_written (written w ++ [request])
        (set_global_sequence_num (global_sequence_num w + 1)%Z w) in
    match behaviour writer (written w) request with
    | WriteReturns _ =>
        result (loop_body writer w) = Ret tt
        /\ routing_published (world (loop_body writer w)) = true
        /\ is_shutdown (world (loop_body writer w)) = true
        /\ written (world (loop_body writer w)) = written handed
        /\ global_sequence_num (world (loop_body writer w)) = global_sequence_num handed
    | WriteRaises e => loop_body writer w = (Raise e, handed)
    end.
Proof.
  intros writer w latest Hpub Hlatest Hrange request handed.
  unfold loop_body, bind, gets. rewrite Hpub. cbn [negb].
  rewrite (create_and_publish_with_pose writer _ _ _ w latest Hlatest Hrange).
  fold request. fold handed.
  destruct (behaviour writer (written w) request) as [ok|e].
  - cbn. repeat split.
  - reflexivity.
Qed.

(** An iteration with a cached message and a sequence number that does not
    fit: the [ValueError] of [fill_header] leaves the iteration before
    anything is handed to the writer. *)
Lemma loop_body_out_of_range :
  forall (writer : Writer) (w : World) (latest : LocalizationEstimate.t),
    routing_published w = false ->
    latest_localization_msg w = Some latest ->
    sequence_num_in_range (global_sequence_num w + 1) = false ->
    loop_body writer w
    = (Raise Exception, set_global_sequence_num (global_sequence_num w + 1)%Z w).
Proof.
  intros writer w latest Hpub Hlatest Hrange.
  unfold loop_body, bind, gets. rewrite Hpub. cbn [negb].
  rewrite (create_and_publish_out_of_range writer _ _ _ w latest Hlatest Hrange).
  reflexivity.
Qed.

(** Once the flag is set, nothing that happens in the loop hands a message
    to the writer, moves the counter or clears the flag. *)
Lemma run_loop_published :
  forall (writer : Writer) (events : list Event) (w : World),
    routing_published w = true ->
    written (world (run_loop writer events w)) = written w
    /\ global_sequence_num (world (run_loop writer events w)) = global_sequence_num w
    /\ routing_published (world (run_loop writer events w)) = true.
Proof.
  intros writer events.
  induction events as [|ev events IH]; intros w Hpub.
  - cbn. auto.
  - destruct ev as [t|msg| | |]; cbn [run_loop].
    + rewrite (bind_returns _ _ _ _ w (set_clock t w) tt eq_refl).
      exact (IH (set_clock t w) Hpub).
    + rewrite (bind_returns _ _ _ _ w w tt (localization_callback_ignored w msg Hpub)).
      apply IH. exact Hpub.
    + rewrite (bind_returns _ _ (gets is_shutdown) _ w w (is_shutdown w) eq_refl).
      destruct (is_shutdown w).
      * cbn. auto.
      * rewrite (bind_returns _ _ _ _ w _ tt (loop_body_published writer w Hpub)).
        match goal with |- context [run_loop writer events ?w1] =>
          destruct (IH w1 Hpub) as [Hw [Hn Hp]] end.
        cbn in Hw, Hn. auto.
    + cbn. auto.
    + rewrite (bind_returns _ _ _ _ w (set_is_shutdown true w) tt eq_refl).
      exact (IH (set_is_shutdown true w) Hpub).
Qed.

(** In a process that has handed nothing over yet, whatever happens in the
    loop leaves either nothing handed over, or exactly one request, stamped
    with sequence number 1. *)
Lemma run_loop_from_fresh :
  forall (writer : Writer) (events : list Event) (w : World),
    routing_published w = false ->
    written w = [] ->
    global_sequence_num w = 0%Z ->
    (written (world (run_loop writer events w)) = []
     /\ global_sequence_num (world (run_loop writer events w)) = 0%Z)
    \/ (exists request : RoutingRequest.t,
           written (world (run_loop writer events w)) = [request]
           /\ Header.sequence_num (RoutingRequest.header request) = Some 1%Z
           /\ global_sequence_num (world (run_loop writer events w)) = 1%Z).
Proof.
  intros writer events.
  induction events as [|ev events IH]; intros w Hpub Hwritten Hcounter.
  - left. cbn. auto.
  - destruct ev as [t|msg| | |]; cbn [run_loop].
    + rewrite (bind_returns _ _ _ _ w (set_clock t w) tt eq_refl).
      exact (IH (set_clock t w) Hpub Hwritten Hcounter).
    + rewrite (bind_returns _ _ _ _ w _ tt (localization_callback_stores w msg Hpub)).
      exact (IH (set_latest_localization_msg (Some msg) w) Hpub Hwritten Hcounter).
    + rewrite (bind_returns _ _ (gets is_shutdown) _ w w (is_shutdown w) eq_refl).
      destruct (is_shutdown w).
      { left. cbn. auto. }
      destruct (latest_localization_msg w) as [latest|] eqn:Hlatest.
      * assert (Hrange : sequence_num_in_range (global_sequence_num w + 1) = true)
          by (rewrite Hcounter; exact one_in_range).
        pose proof (loop_body_publishing writer w latest Hpub Hlatest Hrange) as Hbody.
        cbv zeta in Hbody.
        destruct (behaviour writer (written w)
                    (expected_routing_request w latest END_X END_Y ORIGINAL_END_HEADING))
          as [ok|e].
        -- destruct Hbody as [Hres [Hp [_ [Hw Hn]]]].
           destruct (loop_body writer w) as [[[]|e] w1] eqn:Hrun;
             cbn in Hres, Hp, Hw, Hn; [|discriminate Hres].
           rewrite (bind_returns _ _ _ _ w w1 tt Hrun).
           destruct (run_loop_published writer events w1 Hp) as [Hw' [Hn' _]].
           right. eexists. rewrite Hw', Hn', Hw, Hn, Hwritten, Hcounter.
           split; [reflexivity | split; [|reflexivity]].
           rewrite expected_sequence_num, Hcounter. reflexivity.
        -- rewrite (bind_raises _ _ _ _ w _ e Hbody).
           right. eexists. unfold world, snd, set_written, written at 1.
           rewrite Hwritten.
           split; [reflexivity | split].
           ++ rewrite expected_sequence_num, Hcounter. reflexivity.
           ++ cbn. rewrite Hcounter. reflexivity.
      * rewrite (bind_returns _ _ _ _ w _ tt (loop_body_waiting writer w Hpub Hlatest)).
        exact (IH (set_routing_published false
                     (set_log (log w ++ [(WARNING, WaitingForLocalization)]) w))
                  eq_refl Hwritten Hcounter).
    + left. cbn. auto.
    + rewrite (bind_returns _ _ _ _ w (set_is_shutdown true w) tt eq_refl).
      exact (IH (set_is_shutdown true w) Hpub Hwritten Hcounter).
Qed.

(** [main] is the start-up, the loop, and on leaving the loop the matching
    [except] clause and the [finally] clause. *)
Lemma main_eq :
  forall (writer : Writer) (events : list Event) (w0 : World),
    main writer events w0
    = match run_loop writer events (world (startup w0)) with
      | (Ret Running, w1) => (Ret Running, w1)
      | (Ret Finished, w1) => finally_clause w1
      | (Raise e, w1) => finally_clause (world (except_clause e w1))
      end.
Proof.
  intros writer events w0.
  remember (world (startup w0)) as w_up eqn:Hup.
  unfold main, try_except. unfold bind at 1 2.
  change (startup w0) with (Ret tt, world (startup w0)). cbv iota beta.
  rewrite <- Hup.
  destruct (run_loop writer events w_up) as [[[]|[]] w1]; reflexivity.
Qed.

(** What [main] adds around the loop (the start-up records, the handlers and
    the [finally] clause) hands nothing to the writer and touches neither
    the counter nor the flag. *)
Lemma main_frame :
  forall (writer : Writer) (events : list Event) (w0 : World),
    written (world (main writer events w0))
    = written (world (run_loop writer events (world (startup w0))))
    /\ global_sequence_num (world (main writer events w0))
       = global_sequence_num (world (run_loop writer events (world (startup w0))))
    /\ routing_published (world (main writer events w0))
       = routing_published (world (run_loop writer events (world (startup w0)))).
Proof.
  intros writer events w0. rewrite main_eq.
  destruct (run_loop writer events (world (startup w0))) as [[[]|[]] w1];
    cbn; try destruct (is_shutdown w1); cbn; auto.
Qed.

(** A run over [before ++ after] is the run over [before], continued over
    [after] if the loop is still alive. *)
Lemma run_loop_app :
  forall (writer : Writer) (before after : list Event) (w : World),
    run_loop writer (before ++ after) w
    = match run_loop writer before w with
      | (Ret Running, w') => run_loop writer after w'
      | stopped => stopped
      end.
Proof.
  intros writer before after.
  induction before as [|ev before IH]; intros w.
  - reflexivity.
  - destruct ev as [t|msg| | |]; cbn [run_loop app].
    + unfold bind, modify. apply IH.
    + unfold bind. destruct (localization_callback msg w) as [[u|e] w1].
      * apply IH.
      * reflexivity.
    + unfold bind, gets. destruct (is_shutdown w).
      * reflexivity.
      * destruct (loop_body writer w) as [[u|e] w1].
        -- apply IH.
        -- reflexivity.
    + reflexivity.
    + unfold bind, cyber_shutdown, modify. apply IH.
Qed.

(** A loop that is still alive with the flag unset has stamped nothing and
    handed nothing over: a stamp or a write either sets the flag or leaves
    the loop. *)
Lemma run_loop_still_waiting :
  forall (writer : Writer) (events : list Event) (w w' : World),
    routing_published w = false ->
    run_loop writer events w = (Ret Running, w') ->
    routing_published w' = false ->
    global_sequence_num w' = global_sequence_num w
    /\ written w' = written w.
Proof.
  intros writer events.
  induction events as [|ev events IH]; intros w w' Hpub Hrun Hpub'.
  - cbn in Hrun. injection Hrun as <-. auto.
  - destruct ev as [t|msg| | |]; cbn [run_loop] in Hrun.
    + rewrite (bind_returns _ _ _ _ w (set_clock t w) tt eq_refl) in Hrun.
      exact (IH (set_clock t w) w' Hpub Hrun Hpub').
    + rewrite (bind_returns _ _ _ _ w _ tt (localization_callback_stores w msg Hpub))
        in Hrun.
      exact (IH (set_latest_localization_msg (Some msg) w) w' Hpub Hrun Hpub').
    + rewrite (bind_returns _ _ (gets is_shutdown) _ w w (is_shutdown w) eq_refl)
        in Hrun.
      destruct (is_shutdown w); [discriminate Hrun|].
      destruct (latest_localization_msg w) as [latest|] eqn:Hlatest.
      * destruct (sequence_num_in_range (global_sequence_num w + 1)) eqn:Hrange.
        -- pose proof (loop_body_publishing writer w latest Hpub Hlatest Hrange)
             as Hbody.
           cbv zeta in Hbody.
           destruct (behaviour writer (written w)
                       (expected_routing_request w latest END_X END_Y
                          ORIGINAL_END_HEADING))
             as [ok|e].
           ++ destruct Hbody as [Hres [Hp _]].
              destruct (loop_body writer w) as [[[]|e] w1] eqn:Hbody;
                cbn in Hres, Hp; [|discriminate Hres].
              rewrite (bind_returns _ _ _ _ w w1 tt Hbody) in Hrun.
              destruct (run_loop_published writer events w1 Hp) as [_ [_ Hp']].
              rewrite Hrun in Hp'. cbn in Hp'. congruence.
           ++ rewrite (bind_raises _ _ _ _ w _ e Hbody) in Hrun. discriminate Hrun.
        -- rewrite (bind_raises _ _ _ _ w _ Exception
                      (loop_body_out_of_range writer w latest Hpub Hlatest Hrange))
             in Hrun.
           discriminate Hrun.
      * rewrite (bind_returns _ _ _ _ w _ tt (loop_body_waiting writer w Hpub Hlatest))
          in Hrun.
        exact (IH (set_routing_published false
                     (set_log (log w ++ [(WARNING, WaitingForLocalization)]) w))
                  w' eq_refl Hrun Hpub').
    + discriminate Hrun.
    + rewrite (bind_returns _ _ _ _ w (set_is_shutdown true w) tt eq_refl) in Hrun.
      exact (IH (set_is_shutdown true w) w' Hpub Hrun Hpub').
Qed.

(** C1. Whatever the writer does and whatever happens while [main] runs,
    at most one request is ever handed to the writer.  And once the flag is
    set, nothing more is handed over and the counter stands still whatever
    follows in the loop; an iteration then only records the shutdown and
    shuts Cyber RT down: no wait notice, no publish record, no write, which
    is all a call of [create_and_publish_routing_request] could leave. *)
Theorem at_most_one_routing_request :
  (forall (writer : Writer) (events : list Event) (t0 : float),
      (List.length (written (world (main writer events (initial_world t0)))) <= 1)%nat)
  /\ (forall (writer : Writer) (events : list Event) (w : World),
         written (world (run_loop writer events (set_routing_published true w)))
         = written w
         /\ global_sequence_num
              (world (run_loop writer events (set_routing_published true w)))
            = global_sequence_num w)
  /\ (forall (writer : Writer) (w : World),
         loop_body writer (set_routing_published true w)
         = (Ret tt,
            set_is_shutdown true
              (set_log (log w ++ [(INFO, InitiatingShutdown)])
                 (set_routing_published true w)))).
Proof.
  split; [|split].
  - intros writer events t0.
    destruct (main_frame writer events (initial_world t0)) as [-> _].
    destruct (run_loop_from_fresh writer events (world (startup (initial_world t0)))
                eq_refl eq_refl eq_refl)
      as [[-> _] | [request [-> _]]]; cbn; lia.
  - intros writer events w.
    destruct (run_loop_published writer events (set_routing_published true w) eq_refl)
      as [Hw [Hn _]].
    split; assumption.
  - intros writer w.
    apply (loop_body_published writer (set_routing_published true w)).
    reflexivity.
Qed.

(** C3. Calls of [fill_header] in a fresh process, on messages of any types
    and at any times, stamp the sequence numbers 1, 2, ..., N in call order,
    N being the number of calls on a message with a header, and leave the
    counter at N, as long as N is within the range of the header field; no
    number is stamped twice or left out.  (A call that would stamp a number
    beyond that range stamps nothing: it raises [ValueError], with the
    counter on that number, and ends the run of calls.)  In a run of [main],
    where [create_and_publish_routing_request] is the only caller, the
    requests handed to the writer are numbered from 1 in the same way. *)
Theorem sequence_numbers_are_one_to_N :
  (forall (calls : list (float * AnyMessage)) (t0 : float),
      if (Z.of_nat (List.length (filter hasattr_header (map snd calls)))
          <=? SEQUENCE_NUM_MAX)%Z
      then
        exists stamped : list AnyMessage,
          result (fill_headers calls (initial_world t0)) = Ret stamped
          /\ sequence_nums stamped
             = map (fun k => Some (Z.of_nat k))
                   (seq 1 (List.length (filter hasattr_header (map snd calls))))
          /\ global_sequence_num (world (fill_headers calls (initial_world t0)))
             = Z.of_nat (List.length (filter hasattr_header (map snd calls)))
      else
        result (fill_headers calls (initial_world t0)) = Raise Exception
        /\ global_sequence_num (world (fill_headers calls (initial_world t0)))
           = (SEQUENCE_NUM_MAX + 1)%Z)
  /\ (forall (writer : Writer) (events : list Event) (t0 : float),
         map (fun request => Header.sequence_num (RoutingRequest.header request))
             (written (world (main writer events (initial_world t0))))
         = map (fun k => Some (Z.of_nat k))
               (seq 1 (List.length
                         (written (world (main writer events (initial_world t0))))))
         /\ global_sequence_num (world (main writer events (initial_world t0)))
            = Z.of_nat (List.length
                          (written (world (main writer events (initial_world t0)))))).
Proof.
  pose proof (proj1 (sequence_num_in_range_true 1) one_in_range) as Hone.
  split.
  - intros calls t0.
    destruct (Z.leb_spec
                (Z.of_nat (List.length (filter hasattr_header (map snd calls))))
                SEQUENCE_NUM_MAX) as [Hfit | Hover].
    + destruct (fill_headers_count_from calls (initial_world t0))
        as [stamped [Hres [Hnums Hcounter]]]; [cbn; lia | cbn; lia |].
      exists stamped. split; [exact Hres | split].
      * rewrite Hnums. apply map_ext. intros k. cbn. reflexivity.
      * rewrite Hcounter. cbn. reflexivity.
    + apply (fill_headers_exhausted calls (initial_world t0)); cbn; lia.
  - intros writer events t0.
    destruct (main_frame writer events (initial_world t0)) as [-> [-> _]].
    destruct (run_loop_from_fresh writer events (world (startup (initial_world t0)))
                eq_refl eq_refl eq_refl)
      as [[-> ->] | [request [-> [Hseq ->]]]]; cbn.
    + split; reflexivity.
    + rewrite Hseq. split; reflexivity.
Qed.

(** C5, as the script has it. If the write raises in an iteration reached
    with a cached message, the flag stays unset and the failed request and
    its sequence number are spent; but the exception leaves the loop, [main]
    logs it, shuts Cyber RT down and finishes: whatever would have happened
    afterwards ([after]) is never run, so nothing is handed over again. *)
Theorem failed_write_ends_the_run :
  forall (writer : Writer) (before after : list Event) (t0 : float)
         (w : World) (latest : LocalizationEstimate.t) (e : exn),
    run_loop writer before (world (startup (initial_world t0))) = (Ret Running, w) ->
    is_shutdown w = false ->
    routing_published w = false ->
    latest_localization_msg w = Some latest ->
    behaviour writer (written w)
      (expected_routing_request w latest END_X END_Y ORIGINAL_END_HEADING)
    = WriteRaises e ->
    let r := main writer (before ++ Iteration :: after) (initial_world t0) in
    result r = Ret Finished
    /\ routing_published (world r) = false
    /\ is_shutdown (world r) = true
    /\ written (world r)
       = written w
         ++ [expected_routing_request w latest END_X END_Y ORIGINAL_END_HEADING]
    /\ global_sequence_num (world r) = (global_sequence_num w + 1)%Z
    /\ log (world r)
       = log w
         ++ [match e with
             | KeyboardInterrupt => (INFO, StoppedByUser)
             | Exception => (ERROR, UnexpectedError)
             end;
             (INFO, ShutdownComplete)].
Proof.
  intros writer before after t0 w latest e Hbefore Hup Hpub Hlatest Hraise r.
  subst r. rewrite main_eq, run_loop_app, Hbefore.
  cbn [run_loop].
  rewrite (bind_returns _ _ (gets is_shutdown) _ w w (is_shutdown w) eq_refl), Hup.
  assert (Hrange : sequence_num_in_range (global_sequence_num w + 1) = true).
  { destruct (run_loop_still_waiting writer before
                (world (startup (initial_world t0))) w eq_refl Hbefore Hpub)
      as [-> _].
    exact one_in_range. }
  pose proof (loop_body_publishing writer w latest Hpub Hlatest Hrange) as Hbody.
  cbv zeta in Hbody. rewrite Hraise in Hbody.
  rewrite (bind_raises _ _ _ _ w _ e Hbody).
  destruct e; cbn -[END_X END_Y]; rewrite Hup; cbn -[END_X END_Y];
    rewrite <- app_assoc; repeat split; exact Hpub.
Qed.

(** ** Further properties of the run *)

(** The callback touches nothing but the cached message. *)
Lemma localization_callback_frame :
  forall (w : World) (p : LocalizationEstimate.t),
    result (localization_callback p w) = Ret tt
    /\ written (world (localization_callback p w)) = written w
    /\ global_sequence_num (world (localization_callback p w)) = global_sequence_num w
    /\ routing_published (world (localization_callback p w)) = routing_published w
    /\ is_shutdown (world (localization_callback p w)) = is_shutdown w
    /\ log (world (localization_callback p w)) = log w.
Proof.
  intros w p.
  destruct (bool_dec (routing_published w) true) as [Hpub|Hpub].
  - rewrite (localization_callback_ignored w p Hpub). repeat split.
  - apply not_true_is_false in Hpub.
    rewrite (localization_callback_stores w p Hpub). repeat split.
Qed.

(** Once Cyber RT is shut down, the loop only waits for its next test. *)
Lemma run_loop_after_shutdown :
  forall (writer : Writer) (events : list Event) (w : World),
    is_shutdown w = true ->
    written (world (run_loop writer events w)) = written w
    /\ global_sequence_num (world (run_loop writer events w)) = global_sequence_num w
    /\ routing_published (world (run_loop writer events w)) = routing_published w
    /\ is_shutdown (world (run_loop writer events w)) = true
    /\ log (world (run_loop writer events w)) = log w.
Proof.
  intros writer events.
  induction events as [|ev events IH]; intros w Hdown.
  - cbn. auto.
  - destruct ev as [t|msg| | |]; cbn [run_loop].
    + rewrite (bind_returns _ _ _ _ w (set_clock t w) tt eq_refl).
      exact (IH (set_clock t w) Hdown).
    + destruct (localization_callback_frame w msg) as [Hr [Hw [Hn [Hp [Hd Hl]]]]].
      destruct (localization_callback msg w) as [[[]|e] w1] eqn:Hcall;
        cbn in Hr, Hw, Hn, Hp, Hd, Hl; [|discriminate Hr].
      rewrite (bind_returns _ _ _ _ w w1 tt Hcall).
      rewrite <- Hw, <- Hn, <- Hp, <- Hl.
      apply IH. rewrite Hd. exact Hdown.
    + rewrite (bind_returns _ _ (gets is_shutdown) _ w w (is_shutdown w) eq_refl).
      rewrite Hdown. cbn. auto.
    + cbn. auto.
    + rewrite (bind_returns _ _ _ _ w (set_is_shutdown true w) tt eq_refl).
      exact (IH (set_is_shutdown true w) eq_refl).
Qed.

(** X2. Whenever [main] has finished, whichever way the loop was left (the
    loop condition, a Ctrl-C or an exception in the loop), Cyber RT is shut
    down and the last record logged is the completion notice. *)
Theorem main_returns_and_shuts_down :
  forall (writer : Writer) (events : list Event) (w0 : World),
    result (main writer events w0) = Ret Finished ->
    is_shutdown (world (main writer events w0)) = true
    /\ exists earlier,
         log (world (main writer events w0)) = earlier ++ [(INFO, ShutdownComplete)].
Proof.
  intros writer events w0. rewrite main_eq.
  destruct (run_loop writer events (world (startup w0))) as [[[]|[]] w1].
  - cbn. discriminate.
  - intros _. unfold finally_clause, bind, gets.
    destruct (is_shutdown w1) eqn:Hdown; cbn.
    + split; [exact Hdown | eexists; reflexivity].
    + split; [reflexivity | eexists; reflexivity].
  - intros _. unfold finally_clause, bind, gets. cbn.
    destruct (is_shutdown w1) eqn:Hdown; cbn.
    + split; [exact Hdown | eexists; reflexivity].
    + split; [reflexivity | eexists; reflexivity].
  - intros _. unfold finally_clause, bind, gets. cbn.
    destruct (is_shutdown w1) eqn:Hdown; cbn.
    + split; [exact Hdown | eexists; reflexivity].
    + split; [reflexivity | eexists; reflexivity].
Qed.


(** Without a cached message and without a delivery, the loop can only wait. *)
Lemma run_loop_without_pose :
  forall (writer : Writer) (events : list Event) (w : World),
    latest_localization_msg w = None ->
    routing_published w = false ->
    no_pose_delivered events = true ->
    written (world (run_loop writer events w)) = written w
    /\ global_sequence_num (world (run_loop writer events w)) = global_sequence_num w
    /\ routing_published (world (run_loop writer events w)) = false.
Proof.
  intros writer events.
  induction events as [|ev events IH]; intros w Hnone Hpub Hevents.
  - cbn. auto.
  - destruct ev as [t|msg| | |]; cbn [run_loop];
      cbn in Hevents; try discriminate Hevents.
    + rewrite (bind_returns _ _ _ _ w (set_clock t w) tt eq_refl).
      exact (IH (set_clock t w) Hnone Hpub Hevents).
    + rewrite (bind_returns _ _ (gets is_shutdown) _ w w (is_shutdown w) eq_refl).
      destruct (is_shutdown w).
      * cbn. auto.
      * rewrite (bind_returns _ _ _ _ w _ tt (loop_body_waiting writer w Hpub Hnone)).
        exact (IH (set_routing_published false
                     (set_log (log w ++ [(WARNING, WaitingForLocalization)]) w))
                  Hnone eq_refl Hevents).
    + cbn. auto.
    + rewrite (bind_returns _ _ _ _ w (set_is_shutdown true w) tt eq_refl).
      exact (IH (set_is_shutdown true w) Hnone Hpub Hevents).
Qed.

(** X5. No pose, no request: in a run in which no localization message is
    delivered, however many iterations, clock changes, shutdowns or
    interrupts occur, [main] hands nothing to the writer, the counter is not
    moved and the flag stays unset. *)
Theorem no_delivery_no_request :
  forall (writer : Writer) (events : list Event) (w0 : World),
    latest_localization_msg w0 = None ->
    routing_published w0 = false ->
    no_pose_delivered events = true ->
    written (world (main writer events w0)) = written w0
    /\ global_sequence_num (world (main writer events w0)) = global_sequence_num w0
    /\ routing_published (world (main writer events w0)) = false.
Proof.
  intros writer events w0 Hnone Hpub Hevents.
  destruct (main_frame writer events w0) as [-> [-> ->]].
  exact (run_loop_without_pose writer events (world (startup w0)) Hnone Hpub Hevents).
Qed.

(** X6. Waiting is free: [n] iterations without a cached message leave the
    loop alive and log [n] wait notices; the counter, the flag, the cache,
    the shutdown state and the messages handed to the writer are untouched,
    so the request published later is still number 1. *)
Theorem waiting_iterations_only_log :
  forall (writer : Writer) (n : nat) (w : World),
    is_shutdown w = false ->
    routing_published w = false ->
    latest_localization_msg w = None ->
    let r := run_loop writer (repeat Iteration n) w in
    result r = Ret Running
    /\ log (world r) = log w ++ repeat (WARNING, WaitingForLocalization) n
    /\ written (world r) = written w
    /\ global_sequence_num (world r) = global_sequence_num w
    /\ routing_published (world r) = false
    /\ latest_localization_msg (world r) = None
    /\ is_shutdown (world r) = false.
Proof.
  intros writer n.
  induction n as [|n IH]; intros w Hup Hpub Hnone; cbv zeta.
  - cbn. rewrite app_nil_r. auto 10.
  - cbn [repeat run_loop].
    rewrite (bind_returns _ _ (gets is_shutdown) _ w w (is_shutdown w) eq_refl), Hup.
    rewrite (bind_returns _ _ _ _ w _ tt (loop_body_waiting writer w Hpub Hnone)).
    destruct (IH (set_routing_published false
                    (set_log (log w ++ [(WARNING, WaitingForLocalization)]) w))
                Hup eq_refl Hnone)
      as [Hr [Hl [Hw [Hn [Hp [Hc Hd]]]]]].
    cbn in Hl, Hw, Hn.
    rewrite Hr, Hl, Hw, Hn, Hp, Hc, Hd, <- app_assoc. cbn. auto 10.
Qed.

(** Deliveries before a publish: only the last one counts. *)
Lemma run_loop_deliveries :
  forall (writer : Writer) (poses : list LocalizationEstimate.t)
         (p : LocalizationEstimate.t) (rest : list Event) (w : World),
    routing_published w = false ->
    run_loop writer (map Deliver (poses ++ [p]) ++ rest) w
    = run_loop writer rest (set_latest_localization_msg (Some p) w).
Proof.
  intros writer poses p rest.
  induction poses as [|q poses IH]; intros w Hpub; cbn [map app run_loop].
  - rewrite (bind_returns _ _ _ _ w _ tt (localization_callback_stores w p Hpub)).
    reflexivity.
  - rewrite (bind_returns _ _ _ _ w _ tt (localization_callback_stores w q Hpub)).
    exact (IH (set_latest_localization_msg (Some q) w) Hpub).
Qed.

(** X7. The request is built from the newest pose: when several
    localization messages arrive before the iteration that publishes (with
    the next sequence number within the range of the header field), the
    request handed to the writer starts at the position of the last one
    delivered, whatever the earlier ones were, and ends at the configured
    target. *)
Theorem newest_pose_is_published :
  forall (writer : Writer) (poses : list LocalizationEstimate.t)
         (p : LocalizationEstimate.t) (w : World),
    is_shutdown w = false ->
    routing_published w = false ->
    sequence_num_in_range (global_sequence_num w + 1) = true ->
    written (world (run_loop writer (map Deliver (poses ++ [p]) ++ [Iteration]) w))
    = written w ++ [expected_routing_request w p END_X END_Y ORIGINAL_END_HEADING].
Proof.
  intros writer poses p w Hup Hpub Hrange.
  rewrite (run_loop_deliveries writer poses p [Iteration] w Hpub).
  set (w1 := set_latest_localization_msg (Some p) w).
  cbn [run_loop].
  rewrite (bind_returns _ _ (gets is_shutdown) _ w1 w1 (is_shutdown w1) eq_refl).
  change (is_shutdown w1) with (is_shutdown w). rewrite Hup.
  pose proof (loop_body_publishing writer w1 p Hpub eq_refl Hrange) as Hbody.
  cbv zeta in Hbody.
  destruct (behaviour writer (written w1)
              (expected_routing_request w1 p END_X END_Y ORIGINAL_END_HEADING))
    as [ok|e].
  - destruct Hbody as [Hres [_ [_ [Hw _]]]].
    destruct (loop_body writer w1) as [[[]|e] w2] eqn:Hrun;
      cbn in Hres, Hw; [|discriminate Hres].
    rewrite (bind_returns _ _ _ _ w1 w2 tt Hrun).
    cbn. exact Hw.
  - rewrite (bind_raises _ _ _ _ w1 _ e Hbody). reflexivity.
Qed.

(** What [main] adds around the loop never revives Cyber RT. *)
Lemma main_keeps_shutdown :
  forall (writer : Writer) (events : list Event) (w0 : World),
    is_shutdown (world (run_loop writer events (world (startup w0)))) = true ->
    is_shutdown (world (main writer events w0)) = true.
Proof.
  intros writer events w0. rewrite main_eq.
  destruct (run_loop writer events (world (startup w0))) as [[[]|[]] w1];
    cbn; intros Hdown; rewrite ?Hdown; cbn; try reflexivity; exact Hdown.
Qed.

(** When the flag is found set after a stretch of the loop that began with
    it unset, one request was handed over in between and Cyber RT is shut
    down. *)
Lemma run_loop_flag_set :
  forall (writer : Writer) (events : list Event) (w : World),
    routing_published w = false ->
    routing_published (world (run_loop writer events w)) = true ->
    is_shutdown (world (run_loop writer events w)) = true
    /\ global_sequence_num (world (run_loop writer events w))
       = (global_sequence_num w + 1)%Z
    /\ exists request : RoutingRequest.t,
         written (world (run_loop writer events w)) = written w ++ [request].
Proof.
  intros writer events.
  induction events as [|ev events IH]; intros w Hpub.
  - cbn. rewrite Hpub. discriminate.
  - destruct ev as [t|msg| | |]; cbn [run_loop].
    + rewrite (bind_returns _ _ _ _ w (set_clock t w) tt eq_refl).
      exact (IH (set_clock t w) Hpub).
    + rewrite (bind_returns _ _ _ _ w _ tt (localization_callback_stores w msg Hpub)).
      exact (IH (set_latest_localization_msg (Some msg) w) Hpub).
    + rewrite (bind_returns _ _ (gets is_shutdown) _ w w (is_shutdown w) eq_refl).
      destruct (is_shutdown w).
      { cbn. rewrite Hpub. discriminate. }
      destruct (latest_localization_msg w) as [latest|] eqn:Hlatest.
      * destruct (sequence_num_in_range (global_sequence_num w + 1)) eqn:Hrange.
        2:{ rewrite (bind_raises _ _ _ _ w _ Exception
                       (loop_body_out_of_range writer w latest Hpub Hlatest Hrange)).
            cbn. rewrite Hpub. discriminate. }
        pose proof (loop_body_publishing writer w latest Hpub Hlatest Hrange) as Hbody.
        cbv zeta in Hbody.
        destruct (behaviour writer (written w)
                    (expected_routing_request w latest END_X END_Y ORIGINAL_END_HEADING))
          as [ok|e].
        -- destruct Hbody as [Hres [Hp [Hd [Hw Hn]]]].
           destruct (loop_body writer w) as [[[]|e] w1] eqn:Hrun;
             cbn in Hres, Hp, Hd, Hw, Hn; [|discriminate Hres].
           rewrite (bind_returns _ _ _ _ w w1 tt Hrun).
           destruct (run_loop_after_shutdown writer events w1 Hd)
             as [Hw' [Hn' [_ [Hd' _]]]].
           intros _. rewrite Hw', Hn', Hd', Hw, Hn.
           split; [reflexivity | split; [reflexivity | eexists; reflexivity]].
        -- rewrite (bind_raises _ _ _ _ w _ e Hbody).
           cbn. rewrite Hpub. discriminate.
      * rewrite (bind_returns _ _ _ _ w _ tt (loop_body_waiting writer w Hpub Hlatest)).
        exact (IH (set_routing_published false
                     (set_log (log w ++ [(WARNING, WaitingForLocalization)]) w))
                  eq_refl).
    + cbn. rewrite Hpub. discriminate.
    + rewrite (bind_returns _ _ _ _ w (set_is_shutdown true w) tt eq_refl).
      exact (IH (set_is_shutdown true w) Hpub).
Qed.

(** X8. The value [writer.write] returns is discarded: once the request is
    stamped (the next sequence number being within the range of the header
    field), whatever flag the write returns, the failure flag included, the
    iteration sets
    [routing_published] and shuts Cyber RT down, so the request (and its
    sequence number) is spent and nothing that follows hands it over again. *)
Theorem returned_write_counts_as_published :
  forall (writer : Writer) (before after : list Event) (w0 w : World)
         (latest : LocalizationEstimate.t) (ok : bool),
    run_loop writer before (world (startup w0)) = (Ret Running, w) ->
    is_shutdown w = false ->
    routing_published w = false ->
    latest_localization_msg w = Some latest ->
    sequence_num_in_range (global_sequence_num w + 1) = true ->
    behaviour writer (written w)
      (expected_routing_request w latest END_X END_Y ORIGINAL_END_HEADING)
    = WriteReturns ok ->
    let r := main writer (before ++ Iteration :: after) w0 in
    routing_published (world r) = true
    /\ is_shutdown (world r) = true
    /\ written (world r)
       = written w
         ++ [expected_routing_request w latest END_X END_Y ORIGINAL_END_HEADING]
    /\ global_sequence_num (world r) = (global_sequence_num w + 1)%Z.
Proof.
  intros writer before after w0 w latest ok Hbefore Hup Hpub Hlatest Hrange Hreturns r.
  subst r.
  assert (Hloop :
    let l := run_loop writer (before ++ Iteration :: after) (world (startup w0)) in
    routing_published (world l) = true
    /\ is_shutdown (world l) = true
    /\ written (world l)
       = written w
         ++ [expected_routing_request w latest END_X END_Y ORIGINAL_END_HEADING]
    /\ global_sequence_num (world l) = (global_sequence_num w + 1)%Z).
  { cbv zeta. rewrite run_loop_app, Hbefore. cbn [run_loop].
    rewrite (bind_returns _ _ (gets is_shutdown) _ w w (is_shutdown w) eq_refl), Hup.
    pose proof (loop_body_publishing writer w latest Hpub Hlatest Hrange) as Hbody.
    cbv zeta in Hbody. rewrite Hreturns in Hbody.
    destruct Hbody as [Hres [Hp [Hd [Hw Hn]]]].
    destruct (loop_body writer w) as [[[]|e] w1] eqn:Hrun;
      cbn in Hres, Hp, Hd, Hw, Hn; [|discriminate Hres].
    rewrite (bind_returns _ _ _ _ w w1 tt Hrun).
    destruct (run_loop_after_shutdown writer after w1 Hd)
      as [Hw' [Hn' [Hp' [Hd' _]]]].
    rewrite Hw', Hn', Hp', Hd', Hw, Hn. auto. }
  cbv zeta in Hloop. destruct Hloop as [Hp [Hd [Hw Hn]]].
  destruct (main_frame writer (before ++ Iteration :: after) w0) as [-> [-> ->]].
  split; [exact Hp | split; [| split; [exact Hw | exact Hn]]].
  apply main_keeps_shutdown. exact Hd.
Qed.

(** X9. The flag tells the truth about the bus: if a run of [main] that
    began with the flag unset ends with it set, then exactly one request
    was handed to the writer during the run, the counter moved by exactly
    one, and Cyber RT is shut down. *)
Theorem published_flag_means_one_request :
  forall (writer : Writer) (events : list Event) (w0 : World),
    routing_published w0 = false ->
    routing_published (world (main writer events w0)) = true ->
    is_shutdown (world (main writer events w0)) = true
    /\ global_sequence_num (world (main writer events w0))
       = (global_sequence_num w0 + 1)%Z
    /\ exists request : RoutingRequest.t,
         written (world (main writer events w0)) = written w0 ++ [request].
Proof.
  intros writer events w0 Hpub Hset.
  destruct (main_frame writer events w0) as [Hw [Hn Hp]].
  rewrite Hp in Hset.
  destruct (run_loop_flag_set writer events (world (startup w0)) Hpub Hset)
    as [Hd [Hn' [request Hw']]].
  split; [apply main_keeps_shutdown; exact Hd | split].
  - rewrite Hn, Hn'. reflexivity.
  - exists request. rewrite Hw, Hw'. reflexivity.
Qed.

(** Whatever the loop hands to the writer was built from the message cached
    at that moment, which is either the one cached at the start or one
    delivered since. *)
Lemma run_loop_request_origin :
  forall (writer : Writer) (events : list Event) (w : World),
    routing_published w = false ->
    forall request : RoutingRequest.t,
      In request (written (world (run_loop writer events w))) ->
      In request (written w)
      \/ exists p : LocalizationEstimate.t,
           (latest_localization_msg w = Some p \/ In (Deliver p) events)
           /\ RoutingRequest.waypoint request
              = [ LaneWaypoint.mk
                    (PointENU.mk
                       (Some (read_x (Pose.position (LocalizationEstimate.pose p))))
                       (Some (read_y (Pose.position (LocalizationEstimate.pose p)))))
                    None;
                  LaneWaypoint.mk (PointENU.mk (Some END_X) (Some END_Y))
                    (Some ORIGINAL_END_HEADING) ]
           /\ Header.module_name (RoutingRequest.header request)
              = Some "routing_publisher"%string.
Proof.
  intros writer events.
  induction events as [|ev events IH]; intros w Hpub request.
  - cbn. auto.
  - destruct ev as [t|msg| | |]; cbn [run_loop].
    + rewrite (bind_returns _ _ _ _ w (set_clock t w) tt eq_refl).
      intros Hin.
      destruct (IH (set_clock t w) Hpub request Hin) as [Hold | [p [[Hp|Hp] Hreq]]].
      * left. exact Hold.
      * right. exists p. split; [left; exact Hp | exact Hreq].
      * right. exists p. split; [right; right; exact Hp | exact Hreq].
    + rewrite (bind_returns _ _ _ _ w _ tt (localization_callback_stores w msg Hpub)).
      intros Hin.
      destruct (IH (set_latest_localization_msg (Some msg) w) Hpub request Hin)
        as [Hold | [p [[Hp|Hp] Hreq]]].
      * left. exact Hold.
      * right. exists p. cbn in Hp. injection Hp as ->.
        split; [right; left; reflexivity | exact Hreq].
      * right. exists p. split; [right; right; exact Hp | exact Hreq].
    + rewrite (bind_returns _ _ (gets is_shutdown) _ w w (is_shutdown w) eq_refl).
      destruct (is_shutdown w).
      { cbn. auto. }
      destruct (latest_localization_msg w) as [latest|] eqn:Hlatest.
      * assert (Hhanded :
          In request
             (written w
              ++ [expected_routing_request w latest END_X END_Y ORIGINAL_END_HEADING]) ->
          In request (written w)
          \/ exists p : LocalizationEstimate.t,
               (Some latest = Some p \/ In (Deliver p) (Iteration :: events))
               /\ RoutingRequest.waypoint request
                  = [ LaneWaypoint.mk
                        (PointENU.mk
                           (Some (read_x (Pose.position (LocalizationEstimate.pose p))))
                           (Some (read_y (Pose.position (LocalizationEstimate.pose p)))))
                        None;
                      LaneWaypoint.mk (PointENU.mk (Some END_X) (Some END_Y))
                        (Some ORIGINAL_END_HEADING) ]
               /\ Header.module_name (RoutingRequest.header request)
                  = Some "routing_publisher"%string).
        { intros Hin. apply in_app_or in Hin. destruct Hin as [Hold | [<- | []]].
          - left. exact Hold.
          - right. exists latest. split; [left; reflexivity | split; reflexivity]. }
        destruct (sequence_num_in_range (global_sequence_num w + 1)) eqn:Hrange.
        2:{ rewrite (bind_raises _ _ _ _ w _ Exception
                       (loop_body_out_of_range writer w latest Hpub Hlatest Hrange)).
            cbn. auto. }
        pose proof (loop_body_publishing writer w latest Hpub Hlatest Hrange) as Hbody.
        cbv zeta in Hbody.
        destruct (behaviour writer (written w)
                    (expected_routing_request w latest END_X END_Y ORIGINAL_END_HEADING))
          as [ok|e].
        -- destruct Hbody as [Hres [_ [Hd [Hw _]]]].
           destruct (loop_body writer w) as [[[]|e] w1] eqn:Hrun;
             cbn in Hres, Hd, Hw; [|discriminate Hres].
           rewrite (bind_returns _ _ _ _ w w1 tt Hrun).
           destruct (run_loop_after_shutdown writer events w1 Hd) as [Hw' _].
           rewrite Hw', Hw. exact Hhanded.
        -- rewrite (bind_raises _ _ _ _ w _ e Hbody). exact Hhanded.
      * rewrite (bind_returns _ _ _ _ w _ tt (loop_body_waiting writer w Hpub Hlatest)).
        intros Hin.
        destruct (IH (set_routing_published false
                        (set_log (log w ++ [(WARNING, WaitingForLocalization)]) w))
                     eq_refl request Hin)
          as [Hold | [p [[Hp|Hp] Hreq]]].
        -- left. exact Hold.
        -- cbn in Hp. rewrite Hlatest in Hp. discriminate Hp.
        -- right. exists p. split; [right; right; exact Hp | exact Hreq].
    + cbn. auto.
    + rewrite (bind_returns _ _ _ _ w (set_is_shutdown true w) tt eq_refl).
      intros Hin.
      destruct (IH (set_is_shutdown true w) Hpub request Hin)
        as [Hold | [p [[Hp|Hp] Hreq]]].
      * left. exact Hold.
      * right. exists p. split; [left; exact Hp | exact Hreq].
      * right. exists p. split; [right; right; exact Hp | exact Hreq].
Qed.

(** X10. Nothing is made up: every request a fresh process hands to the
    writer starts at the position of a localization message that was really
    delivered during the run (read with the protobuf defaults), without a
    heading; it ends at the configured target with its heading; and its
    header names the module "routing_publisher". *)
Theorem published_request_comes_from_a_delivered_pose :
  forall (writer : Writer) (events : list Event) (t0 : float)
         (request : RoutingRequest.t),
    In request (written (world (main writer events (initial_world t0)))) ->
    exists p : LocalizationEstimate.t,
      In (Deliver p) events
      /\ RoutingRequest.waypoint request
         = [ LaneWaypoint.mk
               (PointENU.mk
                  (Some (read_x (Pose.position (LocalizationEstimate.pose p))))
                  (Some (read_y (Pose.position (LocalizationEstimate.pose p)))))
               None;
             LaneWaypoint.mk (PointENU.mk (Some END_X) (Some END_Y))
               (Some ORIGINAL_END_HEADING) ]
      /\ Header.module_name (RoutingRequest.header request)
         = Some "routing_publisher"%string.
Proof.
  intros writer events t0 request Hin.
  destruct (main_frame writer events (initial_world t0)) as [Hw _].
  rewrite Hw in Hin.
  destruct (run_loop_request_origin writer events (world (startup (initial_world t0)))
              eq_refl request Hin)
    as [[] | [p [[Hp|Hp] Hreq]]].
  - discriminate Hp.
  - exists p. split; [exact Hp | exact Hreq].
Qed.

End Script.

(** ** Concrete runs *)

(** The callback after a publish: the message cached at (1.0, 2.0) survives
    the arrival of one at (3.0, 4.0). *)
Lemma localization_callback_frozen_after_publish_witness :
  routing_published published_world = true
  /\ localization_callback nan nan (pose_at 3.0 4.0 0.25) published_world
     = (Ret tt, published_world)
  /\ latest_localization_msg
       (world (localization_callback nan nan (pose_at 3.0 4.0 0.25) published_world))
     = Some (pose_at 1.0 2.0 0.5).
Proof.
  split; [reflexivity|].
  apply (localization_callback_frozen_after_publish nan nan published_world
           (pose_at 3.0 4.0 0.25)).
  reflexivity.
Defined.

(** Two messages before any publish: the second one is the one cached. *)
Lemma localization_callback_last_write_wins_witness :
  routing_published (initial_world 0) = false
  /\ latest_localization_msg
       (world ((localization_callback nan nan (pose_at 1.0 2.0 0.5) ;;
                localization_callback nan nan (pose_at 3.0 4.0 0.25))
                 (initial_world 0)))
     = Some (pose_at 3.0 4.0 0.25).
Proof.
  split; [reflexivity|].
  apply (localization_callback_last_write_wins nan nan (initial_world 0)
           (pose_at 1.0 2.0 0.5) (pose_at 3.0 4.0 0.25)).
  reflexivity.
Defined.

(** [fill_header] on a [PointENU], which has no header. *)
Lemma fill_header_without_header_attr_witness :
  @header_attr PointENU.t PointENU_Message = None
  /\ fill_header 32%positive (PointENU.mk (Some 1.0) (Some 2.0)) (initial_world 0)
     = (Ret (PointENU.mk (Some 1.0) (Some 2.0)), initial_world 0).
Proof.
  split; [reflexivity|].
  apply (fill_header_without_header_attr 32%positive PointENU.t PointENU_Message
           (PointENU.mk (Some 1.0) (Some 2.0)) (initial_world 0)).
  reflexivity.
Defined.

(** The scenario of the specification: a pose at (1.0, 2.0) has arrived in a
    fresh process and the target is (5.0, 6.0, 0.78). *)
Lemma routing_request_has_start_and_end_waypoint_witness :
  latest_localization_msg
    (world (localization_callback nan nan (pose_at 1.0 2.0 0.5) (initial_world 0)))
  = Some (pose_at 1.0 2.0 0.5)
  /\ sequence_num_in_range 32%positive
       (global_sequence_num
          (world (localization_callback nan nan (pose_at 1.0 2.0 0.5) (initial_world 0)))
        + 1)
     = true
  /\ exists request : RoutingRequest.t,
       written
         (world
            (create_and_publish_routing_request 32%positive nan nan reliable_writer 5.0 6.0 0.78
               (world (localization_callback nan nan (pose_at 1.0 2.0 0.5)
                         (initial_world 0)))))
       = [request]
       /\ RoutingRequest.waypoint request
          = [ LaneWaypoint.mk (PointENU.mk (Some 1.0) (Some 2.0)) None;
              LaneWaypoint.mk (PointENU.mk (Some 5.0) (Some 6.0)) (Some 0.78) ]
       /\ Header.sequence_num (RoutingRequest.header request) = Some 1%Z
       /\ result
            (create_and_publish_routing_request 32%positive nan nan reliable_writer 5.0 6.0 0.78
               (world (localization_callback nan nan (pose_at 1.0 2.0 0.5)
                         (initial_world 0))))
          = Ret true.
Proof.
  split; [reflexivity | split; [reflexivity|]].
  destruct (routing_request_has_start_and_end_waypoint 32%positive nan nan reliable_writer
              5.0 6.0 0.78
              (world (localization_callback nan nan (pose_at 1.0 2.0 0.5)
                        (initial_world 0)))
              (pose_at 1.0 2.0 0.5) eq_refl eq_refl)
    as [request [Hwritten [Hwaypoint [Hseq Hreturns]]]].
  exists request.
  split; [exact Hwritten | split; [exact Hwaypoint | split; [exact Hseq |]]].
  apply (Hreturns true). reflexivity.
Defined.

(** A call in a fresh process, before any pose has arrived. *)
Lemma no_premature_publish_witness :
  latest_localization_msg (initial_world 0) = None
  /\ result (create_and_publish_routing_request 32%positive nan nan reliable_writer 5.0 6.0 0.78
               (initial_world 0))
     = Ret false
  /\ written
       (world (create_and_publish_routing_request 32%positive nan nan reliable_writer 5.0 6.0 0.78
                 (initial_world 0)))
     = [].
Proof.
  split; [reflexivity|].
  apply (no_premature_publish 32%positive nan nan reliable_writer 5.0 6.0 0.78 (initial_world 0)).
  reflexivity.
Defined.

(** The same call, seen from its result. *)
Lemma not_ready_changes_no_state_witness :
  result (create_and_publish_routing_request 32%positive nan nan flaky_writer 5.0 6.0 0.78
            (initial_world 0))
  = Ret false
  /\ world (create_and_publish_routing_request 32%positive nan nan flaky_writer 5.0 6.0 0.78
              (initial_world 0))
     = set_log [(WARNING, WaitingForLocalization)] (initial_world 0).
Proof.
  split; [reflexivity|].
  apply (not_ready_changes_no_state 32%positive nan nan flaky_writer 5.0 6.0 0.78 (initial_world 0)).
  reflexivity.
Defined.

(** A pose arrives, the first write raises, and two more iterations are due:
    the run is over after the first of them. *)
Lemma failed_write_ends_the_run_witness :
  let w := world (run_loop sample_cos sample_sin 32%positive nan nan flaky_writer
                    [Deliver (pose_at 1.0 2.0 0.5)]
                    (world (startup (initial_world 0)))) in
  let r := main sample_cos sample_sin 32%positive nan nan flaky_writer
             ([Deliver (pose_at 1.0 2.0 0.5)] ++ Iteration :: [Iteration; Iteration])
             (initial_world 0) in
  behaviour flaky_writer (written w)
    (expected_routing_request nan nan w (pose_at 1.0 2.0 0.5)
       (END_X sample_cos sample_sin) (END_Y sample_cos sample_sin) ORIGINAL_END_HEADING)
  = WriteRaises Exception
  /\ result r = Ret Finished
  /\ routing_published (world r) = false
  /\ List.length (written (world r)) = 1%nat.
Proof.
  cbv zeta.
  split; [reflexivity|].
  destruct (failed_write_ends_the_run sample_cos sample_sin 32%positive nan nan flaky_writer
              [Deliver (pose_at 1.0 2.0 0.5)] [Iteration; Iteration] 0
              (world (run_loop sample_cos sample_sin 32%positive nan nan flaky_writer
                        [Deliver (pose_at 1.0 2.0 0.5)]
                        (world (startup (initial_world 0)))))
              (pose_at 1.0 2.0 0.5) Exception
              eq_refl eq_refl eq_refl eq_refl eq_refl)
    as [Hresult [Hflag [_ [Hwritten _]]]].
  split; [exact Hresult | split; [exact Hflag |]].
  rewrite Hwritten. reflexivity.
Defined.

(** C5 as the specification states it fails on the script: with a pose
    cached and a writer that raises once and would then succeed, two
    iterations do not hand the request to the bus a second time, whatever
    [math.cos], [math.sin], the width of the sequence field and the protobuf
    defaults are. *)
Lemma failed_write_is_not_retried :
  ~ (exists (cos sin : float -> float) (bits : positive) (x_default y_default : float),
        retried
          (written
             (world
                (main cos sin bits x_default y_default flaky_writer
                   [Deliver (pose_at 1.0 2.0 0.5); Iteration; Iteration]
                   (initial_world 0))))).
Proof.
  intros [cos [sin [bits [x_default [y_default Hretried]]]]].
  destruct Hretried as [first [second [rest [Hhanded _]]]].
  destruct (main_frame cos sin bits x_default y_default flaky_writer
              [Deliver (pose_at 1.0 2.0 0.5); Iteration; Iteration] (initial_world 0))
    as [Hframe _].
  rewrite Hframe in Hhanded.
  destruct (run_loop_from_fresh cos sin bits x_default y_default flaky_writer
              [Deliver (pose_at 1.0 2.0 0.5); Iteration; Iteration]
              (world (startup (initial_world 0))) eq_refl eq_refl eq_refl)
    as [[Hnone _] | [request [Hone _]]];
    rewrite Hhanded in *; discriminate.
Qed.

(** C4 as the specification states it fails on the script: at an infinite
    heading [move_by_heading] does not return the pair of the formula (it
    returns nothing: [math.cos] raises), whatever the C library's functions
    are. *)
Lemma move_by_heading_raises_on_infinite_heading :
  ~ (exists cos sin : float -> float,
        move_by_heading cos sin 0 0 infinity 1
        = Ret (0 + 1 * cos infinity, 0 + 1 * sin infinity)).
Proof.
  intros [cos [sin Hreturns]].
  discriminate Hreturns.
Qed.

(** ** Concrete runs for the further properties *)

(** A run left through its loop condition after a successful publish. *)
Lemma main_returns_and_shuts_down_witness :
  result (main sample_cos sample_sin 32%positive nan nan reliable_writer
            [Deliver (pose_at 1.0 2.0 0.5); Iteration; Iteration] (initial_world 0))
  = Ret Finished
  /\ is_shutdown
       (world (main sample_cos sample_sin 32%positive nan nan reliable_writer
                 [Deliver (pose_at 1.0 2.0 0.5); Iteration; Iteration]
                 (initial_world 0)))
     = true.
Proof.
  split; [reflexivity|].
  apply (main_returns_and_shuts_down sample_cos sample_sin 32%positive nan nan
           reliable_writer [Deliver (pose_at 1.0 2.0 0.5); Iteration; Iteration]
           (initial_world 0)).
  reflexivity.
Defined.


(** Iterations and a shutdown, but no pose. *)
Lemma no_delivery_no_request_witness :
  latest_localization_msg (initial_world 0) = None
  /\ routing_published (initial_world 0) = false
  /\ no_pose_delivered [Iteration; TimeIs 1.0; Iteration; ExternalShutdown] = true
  /\ written
       (world (main sample_cos sample_sin 32%positive nan nan reliable_writer
                 [Iteration; TimeIs 1.0; Iteration; ExternalShutdown] (initial_world 0)))
     = [].
Proof.
  split; [reflexivity | split; [reflexivity | split; [reflexivity|]]].
  apply (no_delivery_no_request sample_cos sample_sin 32%positive nan nan reliable_writer
           [Iteration; TimeIs 1.0; Iteration; ExternalShutdown] (initial_world 0));
    reflexivity.
Defined.

(** Three iterations in a fresh process. *)
Lemma waiting_iterations_only_log_witness :
  is_shutdown (initial_world 0) = false
  /\ routing_published (initial_world 0) = false
  /\ latest_localization_msg (initial_world 0) = None
  /\ result (run_loop sample_cos sample_sin 32%positive nan nan reliable_writer
               (repeat Iteration 3) (initial_world 0))
     = Ret Running.
Proof.
  split; [reflexivity | split; [reflexivity | split; [reflexivity|]]].
  apply (waiting_iterations_only_log sample_cos sample_sin 32%positive nan nan reliable_writer
           3 (initial_world 0));
    reflexivity.
Defined.

(** Two poses, then an iteration: the request starts at the second. *)
Lemma newest_pose_is_published_witness :
  is_shutdown (initial_world 0) = false
  /\ routing_published (initial_world 0) = false
  /\ sequence_num_in_range 32%positive (global_sequence_num (initial_world 0) + 1) = true
  /\ written
       (world (run_loop sample_cos sample_sin 32%positive nan nan reliable_writer
                 (map Deliver ([pose_at 1.0 2.0 0.5] ++ [pose_at 3.0 4.0 0.25])
                  ++ [Iteration])
                 (initial_world 0)))
     = [] ++ [expected_routing_request nan nan (initial_world 0) (pose_at 3.0 4.0 0.25)
                (END_X sample_cos sample_sin) (END_Y sample_cos sample_sin)
                ORIGINAL_END_HEADING].
Proof.
  split; [reflexivity | split; [reflexivity | split; [reflexivity|]]].
  apply (newest_pose_is_published sample_cos sample_sin 32%positive nan nan reliable_writer
           [pose_at 1.0 2.0 0.5] (pose_at 3.0 4.0 0.25) (initial_world 0));
    reflexivity.
Defined.

(** The writer returns the failure flag: the process still counts the
    request as published. *)
Lemma returned_write_counts_as_published_witness :
  behaviour rejecting_writer []
    (expected_routing_request nan nan
       (set_latest_localization_msg (Some (pose_at 1.0 2.0 0.5))
          (world (startup (initial_world 0))))
       (pose_at 1.0 2.0 0.5)
       (END_X sample_cos sample_sin) (END_Y sample_cos sample_sin) ORIGINAL_END_HEADING)
  = WriteReturns false
  /\ routing_published
       (world (main sample_cos sample_sin 32%positive nan nan rejecting_writer
                 ([Deliver (pose_at 1.0 2.0 0.5)] ++ Iteration :: [Iteration])
                 (initial_world 0)))
     = true.
Proof.
  split; [reflexivity|].
  apply (returned_write_counts_as_published sample_cos sample_sin 32%positive nan nan
           rejecting_writer [Deliver (pose_at 1.0 2.0 0.5)] [Iteration]
           (initial_world 0)
           (set_latest_localization_msg (Some (pose_at 1.0 2.0 0.5))
              (world (startup (initial_world 0))))
           (pose_at 1.0 2.0 0.5) false);
    reflexivity.
Defined.

(** A pose and an iteration with a writer that succeeds. *)
Lemma published_flag_means_one_request_witness :
  routing_published (initial_world 0) = false
  /\ routing_published
       (world (main sample_cos sample_sin 32%positive nan nan reliable_writer
                 [Deliver (pose_at 1.0 2.0 0.5); Iteration] (initial_world 0)))
     = true
  /\ is_shutdown
       (world (main sample_cos sample_sin 32%positive nan nan reliable_writer
                 [Deliver (pose_at 1.0 2.0 0.5); Iteration] (initial_world 0)))
     = true.
Proof.
  split; [reflexivity | split; [reflexivity|]].
  apply (published_flag_means_one_request sample_cos sample_sin 32%positive nan nan reliable_writer
           [Deliver (pose_at 1.0 2.0 0.5); Iteration] (initial_world 0));
    reflexivity.
Defined.

(** The request of that run, traced back to the delivery it came from. *)
Lemma published_request_comes_from_a_delivered_pose_witness :
  In (expected_routing_request nan nan (initial_world 0) (pose_at 1.0 2.0 0.5)
        (END_X sample_cos sample_sin) (END_Y sample_cos sample_sin) ORIGINAL_END_HEADING)
     (written
        (world (main sample_cos sample_sin 32%positive nan nan reliable_writer
                  [Deliver (pose_at 1.0 2.0 0.5); Iteration] (initial_world 0))))
  /\ exists p : LocalizationEstimate.t,
       In (Deliver p) [Deliver (pose_at 1.0 2.0 0.5); Iteration]
       /\ RoutingRequest.waypoint
            (expected_routing_request nan nan (initial_world 0) (pose_at 1.0 2.0 0.5)
               (END_X sample_cos sample_sin) (END_Y sample_cos sample_sin)
               ORIGINAL_END_HEADING)
          = [ LaneWaypoint.mk
                (PointENU.mk
                   (Some (read_x nan (Pose.position (LocalizationEstimate.pose p))))
                   (Some (read_y nan (Pose.position (LocalizationEstimate.pose p)))))
                None;
              LaneWaypoint.mk
                (PointENU.mk (Some (END_X sample_cos sample_sin))
                             (Some (END_Y sample_cos sample_sin)))
                (Some ORIGINAL_END_HEADING) ]
       /\ Header.module_name
            (RoutingRequest.header
               (expected_routing_request nan nan (initial_world 0) (pose_at 1.0 2.0 0.5)
                  (END_X sample_cos sample_sin) (END_Y sample_cos sample_sin)
                  ORIGINAL_END_HEADING))
          = Some "routing_publisher"%string.
Proof.
  assert (Hin :
    In (expected_routing_request nan nan (initial_world 0) (pose_at 1.0 2.0 0.5)
          (END_X sample_cos sample_sin) (END_Y sample_cos sample_sin) ORIGINAL_END_HEADING)
       (written
          (world (main sample_cos sample_sin 32%positive nan nan reliable_writer
                    [Deliver (pose_at 1.0 2.0 0.5); Iteration] (initial_world 0))))).
  { left. reflexivity. }
  split; [exact Hin|].
  exact (published_request_comes_from_a_delivered_pose sample_cos sample_sin 32%positive nan nan
           reliable_writer [Deliver (pose_at 1.0 2.0 0.5); Iteration] 0
           (expected_routing_request nan nan (initial_world 0) (pose_at 1.0 2.0 0.5)
              (END_X sample_cos sample_sin) (END_Y sample_cos sample_sin)
              ORIGINAL_END_HEADING)
           Hin).
Defined.
